(** * wilsonplot3: extraction of Wilson-plot data from a TRUNCATE log

    A shallow embedding of [wilsonplot3.py] and the properties of its
    specification.

    - [PyStr]: the [str] methods the script calls ([in], [strip], [lstrip],
      [split], [isdigit]) on strings whose characters have code points below
      256 (Stdlib [ascii], read as the Latin-1 range of Python's [str]).
    - [PyFloat]: Python's [float(str)] as a parser into IEEE-754 binary64
      values ([spec_float]), correctly rounded; infinities, NaN, overflow
      and underflow are as in Python.
    - [Extractor]: [parse_truncate_log]. The local variables of the
      function form a record, each loop is a fold of its body over the
      lines returned by [readlines()], and [continue], [break] and the
      exceptions of the [try] blocks are explicit.
    - [Raising]: the bodies of the two loops once more, with
      [IndexError] and [ValueError] kept apart.
    - [Plotter]: the two axis transforms of [create_wilson_plot] on the
      reals, where there is no rounding and no overflow.
    - [Binary64], [Plotter64]: the same two closures on binary64 values:
      float literals, [np.maximum], and division, square root and square
      rounded to nearest even. The fit of the regression line is a call
      of [np.linalg.lstsq], a LAPACK routine outside the script, and is
      not part of the embedding.
    - [Axis], [Axis64]: the choice of the ticks of the resolution axis,
      for given limits of the primary axis, with the comparisons made on
      the reals and on binary64 values.
    - [Main]: [create_wilson_plot] as seen by its caller and the
      [__main__] block with its exit codes. The file system and the
      drawing are parameters.
    - [ReportSpec], [ScanSpec]: the notions used to state the properties
      (rows, accepted rows, order of appearance). *)

From Stdlib Require Import Bool Arith ZArith List Lia.
From Stdlib Require Import Strings.Ascii Strings.String.
From Stdlib Require Import Floats.SpecFloat.
From Stdlib Require Import Reals Lra Psatz.
From Stdlib Require Import Sorting.Sorted.
Import ListNotations.

Local Open Scope string_scope.
Local Open Scope list_scope.
Local Open Scope nat_scope.
Local Open Scope bool_scope.

(* ================================================================== *)
(** ** Python [str] methods *)
(* ================================================================== *)

Module PyStr.

(** [c.isspace()] for a one-character [str] with code point below 256. *)
Definition isspace (c : ascii) : bool :=
  let n := nat_of_ascii c in
  ((9 <=? n) && (n <=? 13)) || ((28 <=? n) && (n <=? 32))
  || (n =? 133) || (n =? 160).

(** [c.isdigit()] for a one-character [str] with code point below 256:
    the decimal digits and the superscripts two, three and one. *)
Definition isdigit_char (c : ascii) : bool :=
  let n := nat_of_ascii c in
  ((48 <=? n) && (n <=? 57)) || (n =? 178) || (n =? 179) || (n =? 185).

(** The ASCII decimal digits, the only ones [float] reads below 256. *)
Definition isdecimal_char (c : ascii) : bool :=
  let n := nat_of_ascii c in (48 <=? n) && (n <=? 57).

(** [s.isdigit()]: non-empty and every character a digit. *)
Fixpoint all_digits (s : string) : bool :=
  match s with
  | EmptyString => true
  | String c r => isdigit_char c && all_digits r
  end.

Definition isdigit (s : string) : bool :=
  match s with
  | EmptyString => false
  | _ => all_digits s
  end.

(** [s.lstrip()] *)
Fixpoint lstrip (s : string) : string :=
  match s with
  | EmptyString => EmptyString
  | String c r => if isspace c then lstrip r else s
  end.

(** [s.rstrip()] *)
Fixpoint rstrip (s : string) : string :=
  match s with
  | EmptyString => EmptyString
  | String c r =>
      match rstrip r with
      | EmptyString => if isspace c then EmptyString else String c EmptyString
      | r' => String c r'
      end
  end.

(** [s.strip()] *)
Definition strip (s : string) : string := rstrip (lstrip s).

(** Truth value of a [str]: non-empty. *)
Definition truthy (s : string) : bool :=
  match s with
  | EmptyString => false
  | _ => true
  end.

(** [needle in hay] *)
Fixpoint contains (needle hay : string) : bool :=
  prefix needle hay
  || match hay with
     | EmptyString => false
     | String _ r => contains needle r
     end.

(** [s.split()]: the maximal runs of non-whitespace characters.
    [cur] holds the characters of the token being read, last one first. *)
Definition flush (cur : list ascii) (k : list string) : list string :=
  match cur with
  | [] => k
  | _ => string_of_list_ascii (rev cur) :: k
  end.

Fixpoint split_from (cur : list ascii) (s : string) : list string :=
  match s with
  | EmptyString => flush cur []
  | String c r =>
      if isspace c then flush cur (split_from [] r)
      else split_from (c :: cur) r
  end.

Definition split (s : string) : list string := split_from [] s.

(** [parts[i]]: [None] stands for [IndexError]. *)
Definition item (parts : list string) (i : nat) : option string :=
  nth_error parts i.

End PyStr.

(* ================================================================== *)
(** ** Python [float(str)] *)
(* ================================================================== *)

Module PyFloat.

Import PyStr.

(** A Python float is an IEEE-754 binary64 value. *)
Definition float := spec_float.

Definition prec : Z := 53.
Definition emax : Z := 1024.

(** [float("inf")] and [float("nan")] *)
Definition pinf : float := S754_infinity false.
Definition nan : float := S754_nan.

(** [math.isfinite] *)
Definition is_finite (x : float) : bool :=
  match x with
  | S754_zero _ | S754_finite _ _ _ => true
  | S754_infinity _ | S754_nan => false
  end.

(** [x > 0] *)
Definition gt_zero (x : float) : bool := SFltb (S754_zero false) x.

(** The binary64 value nearest to [(-1)^neg * m * 10^e10] (ties to even,
    overflow to infinity), as the correctly rounded [strtod] gives it. *)
Definition of_decimal (neg : bool) (m : N) (e10 : Z) : float :=
  match m with
  | N0 => S754_zero neg
  | Npos p =>
      match e10 with
      | Zneg k =>
          let '(q, e, l) :=
            SFdiv_core_binary prec emax (Zpos p) 0 (Z.pow_pos 10 k) 0 in
          binary_round_aux prec emax neg q e l
      | _ =>
          match (Zpos p * 10 ^ e10)%Z with
          | Zpos q => binary_round prec emax neg q 0
          | _ => S754_zero neg
          end
      end
  end.

(** Removal of the digit-grouping underscores: one is allowed only
    between two decimal digits. [prev] is the previous character. *)
Definition is_underscore (c : ascii) : bool := (nat_of_ascii c =? 95).

Fixpoint drop_underscores (prev : option ascii) (s : string) : option string :=
  match s with
  | EmptyString =>
      match prev with
      | Some p => if is_underscore p then None else Some EmptyString
      | None => Some EmptyString
      end
  | String c r =>
      if is_underscore c then
        match prev with
        | Some p =>
            if isdecimal_char p then drop_underscores (Some c) r else None
        | None => None
        end
      else
        let after_underscore :=
          match prev with Some p => is_underscore p | None => false end in
        if after_underscore && negb (isdecimal_char c) then None
        else option_map (String c) (drop_underscores (Some c) r)
  end.

(** ASCII lower-casing, for the case-insensitive special values. *)
Definition lower (c : ascii) : ascii :=
  let n := nat_of_ascii c in
  if (65 <=? n) && (n <=? 90) then ascii_of_nat (n + 32) else c.

Fixpoint lower_str (s : string) : string :=
  match s with
  | EmptyString => EmptyString
  | String c r => String (lower c) (lower_str r)
  end.

(** A maximal run of decimal digits: its value continued from [acc], the
    number of digits read, and the rest of the string. *)
Fixpoint digits (acc : N) (cnt : nat) (s : string) : N * nat * string :=
  match s with
  | String c r =>
      if isdecimal_char c
      then digits (acc * 10 + N.of_nat (nat_of_ascii c - 48))%N (S cnt) r
      else (acc, cnt, s)
  | EmptyString => (acc, cnt, s)
  end.

(** An optional sign. *)
Definition sign (s : string) : bool * string :=
  match s with
  | String "-" r => (true, r)
  | String "+" r => (false, r)
  | _ => (false, s)
  end.

(** The exponent part: [e] or [E], an optional sign and at least one
    digit, up to the end of the string. *)
Definition exponent (s : string) : option Z :=
  match s with
  | EmptyString => Some 0%Z
  | String c r =>
      if (nat_of_ascii c =? 101) || (nat_of_ascii c =? 69) then
        let '(neg, r1) := sign r in
        match digits 0 0 r1 with
        | (_, O, _) => None
        | (v, _, EmptyString) =>
            Some (if neg then (- Z.of_N v)%Z else Z.of_N v)
        | _ => None
        end
      else None
  end.

(** The text after the sign: a special value or a decimal literal with
    at least one digit before or after the point. *)
Definition unsigned (neg : bool) (s : string) : option float :=
  let low := lower_str s in
  if String.eqb low "inf" || String.eqb low "infinity" then Some (S754_infinity neg)
  else if String.eqb low "nan" then Some S754_nan
  else
    let '(ip, ni, r1) := digits 0 0 s in
    let '(m, nf, r2) :=
      match r1 with
      | String "." r => digits ip 0 r
      | _ => (ip, O, r1)
      end in
    match (ni + nf)%nat with
    | O => None
    | _ =>
        match exponent r2 with
        | Some e => Some (of_decimal neg m (e - Z.of_nat nf))
        | None => None
        end
    end.

(** [float(s)]: [Some x] for the value, [None] for [ValueError]. *)
Definition float_of_str (s : string) : option float :=
  match drop_underscores None (strip s) with
  | Some t => let '(neg, r) := sign t in unsigned neg r
  | None => None
  end.

End PyFloat.

(* ================================================================== *)
(** ** [parse_truncate_log] *)
(* ================================================================== *)

Module Extractor.

Import PyStr PyFloat.

(** [data_markers] *)
Definition data_markers : list string :=
  [ "i  nref  N_unq";
    "Range N_obs";
    "$   i   nref";
    "Wilson Plot - Suggested Bfactor" ].

(** The local variables of the function that the loops update. *)
Record scan : Type := mkScan {
  data_header_line : Z;
  in_data_section : bool;
  resolution_inv_sq : list float;
  ln_intensity : list float
}.

(** The state before the first loop. *)
Definition init : scan := mkScan (-1) false [] [].

Definition set_header (i : Z) (st : scan) : scan :=
  mkScan i (in_data_section st) (resolution_inv_sq st) (ln_intensity st).

Definition set_section (b : bool) (st : scan) : scan :=
  mkScan (data_header_line st) b (resolution_inv_sq st) (ln_intensity st).

(** The two [append] calls, in the order of the source. *)
Definition append_x (x : float) (st : scan) : scan :=
  mkScan (data_header_line st) (in_data_section st)
         (resolution_inv_sq st ++ [x]) (ln_intensity st).

Definition append_y (y : float) (st : scan) : scan :=
  mkScan (data_header_line st) (in_data_section st)
         (resolution_inv_sq st) (ln_intensity st ++ [y]).

(** How an iteration of a [for] loop ends: it falls through or runs
    [continue] (both go on with the next line), or it runs [break]. *)
Inductive ctl : Type := Next | Break.

(** [for i, line in enumerate(lines)] with a body that may [break]. *)
Fixpoint for_lines (body : Z -> string -> scan -> scan * ctl)
         (i : Z) (lines : list string) (st : scan) : scan :=
  match lines with
  | [] => st
  | line :: rest =>
      match body i line st with
      | (st', Break) => st'
      | (st', Next) => for_lines body (i + 1) rest st'
      end
  end.

(** *** Pass 1: the marker-guided scan *)

(** [for marker in data_markers: if marker in line: ...; break] *)
Definition has_marker (line : string) : bool :=
  existsb (fun marker => contains marker line) data_markers.

Definition mark (i : Z) (line : string) (st : scan) : scan :=
  if has_marker line then set_header i st else st.

(** [data_header_line > 0 and i > data_header_line] *)
Definition after_header (i : Z) (st : scan) : bool :=
  (0 <? data_header_line st)%Z && (data_header_line st <? i)%Z.

(** [line.strip() and line.lstrip()[0].isdigit()] *)
Definition starts_with_number (line : string) : bool :=
  truthy (strip line)
  && match lstrip line with
     | String c _ => isdigit_char c
     | EmptyString => false
     end.

(** [res_idx = 4 if len(parts) > 4 else 1] *)
Definition res_idx (parts : list string) : nat :=
  if 4 <? List.length parts then 4 else 1.

(** [ln_idx = 7 if len(parts) > 7 else 3] *)
Definition ln_idx (parts : list string) : nat :=
  if 7 <? List.length parts then 7 else 3.

(** [float(parts[k])]: [None] for [IndexError] or [ValueError]. *)
Definition float_at (parts : list string) (k : nat) : option float :=
  match item parts k with
  | Some tok => float_of_str tok
  | None => None
  end.

(** The body of the [try] of pass 1: [None] when an exception is
    raised, which happens before the first [append]. *)
Definition try_row1 (parts : list string) (st : scan) : option scan :=
  match float_at parts (res_idx parts) with
  | Some res_sq =>
      match float_at parts (ln_idx parts) with
      | Some ln_i => Some (append_y ln_i (append_x res_sq st))
      | None => None
      end
  | None => None
  end.

(** The data-line statement of pass 1; [None] is the [continue] of the
    exception handler. *)
Definition data_line1 (line : string) (st : scan) : option scan :=
  if in_data_section st && starts_with_number line then
    let parts := split line in
    if 8 <=? List.length parts then try_row1 parts st else Some st
  else Some st.

(** The end-of-section statement of pass 1. *)
Definition section_end1 (line : string) (st : scan) : scan * ctl :=
  if in_data_section st
     && (contains "$" line || String.eqb (strip line) "") then
    if 0 <? List.length (resolution_inv_sq st) then (st, Break) else (st, Next)
  else (st, Next).

Definition pass1_body (i : Z) (line : string) (st : scan) : scan * ctl :=
  let st := mark i line st in
  if after_header i st then
    if contains "$" line && negb (in_data_section st) then
      (set_section true st, Next)
    else
      match data_line1 line st with
      | Some st' => section_end1 line st'
      | None => (st, Next)
      end
  else (st, Next).

Definition pass1 (lines : list string) : scan :=
  for_lines pass1_body 0 lines init.

(** *** Pass 2: the direct scan *)

(** The body of the [try] of pass 2. *)
Definition try_row2 (parts : list string) (st : scan) : option scan :=
  match float_at parts 4 with
  | Some res_sq =>
      match float_at parts 7 with
      | Some ln_i =>
          if gt_zero res_sq
          then Some (set_section true (append_y ln_i (append_x res_sq st)))
          else Some st
      | None => None
      end
  | None => None
  end.

(** [parts[0].isdigit()], evaluated only when [len(parts) >= 8]. *)
Definition first_isdigit (parts : list string) : bool :=
  match item parts 0 with
  | Some tok => isdigit tok
  | None => false
  end.

Definition pass2_body (i : Z) (line : string) (st : scan) : scan * ctl :=
  let parts := split line in
  if (8 <=? List.length parts) && first_isdigit parts then
    match try_row2 parts st with
    | Some st' => (st', Next)
    | None => (st, Next)
    end
  else if in_data_section st && (List.length parts <? 8) then (st, Break)
  else (st, Next).

Definition pass2 (lines : list string) (st : scan) : scan :=
  for_lines pass2_body 0 lines (set_section false st).

(** *** The function *)

(** The statements after [lines = f.readlines()]: pass 1, pass 2 when
    pass 1 left the list empty, and the result. [None] is the pair
    [(None, None)]. *)
Definition after_pass1 (lines : list string) : scan :=
  let st := pass1 lines in
  match resolution_inv_sq st with
  | [] => pass2 lines st
  | _ => st
  end.

Definition result (st : scan) : option (list float * list float) :=
  match resolution_inv_sq st with
  | [] => None
  | _ => Some (resolution_inv_sq st, ln_intensity st)
  end.

Definition parse_lines (lines : list string) : option (list float * list float) :=
  result (after_pass1 lines).

(** [parse_truncate_log(log_file)]: [readlines] gives the lines of the
    file, or [None] when opening or reading raises, which the outer
    handler turns into [(None, None)]. *)
Definition parse_truncate_log (readlines : string -> option (list string))
           (log_file : string) : option (list float * list float) :=
  match readlines log_file with
  | Some lines => parse_lines lines
  | None => None
  end.

End Extractor.

(* ================================================================== *)
(** ** The two passes with their exceptions *)
(* ================================================================== *)

(** The bodies of the two loops once more, with the exception each
    subscript and each [float] call may raise kept apart: a subscript out
    of range raises [IndexError], [float] of a malformed token raises
    [ValueError]. In [Extractor] the two are one [None]. *)
Module Raising.

Import PyStr PyFloat Extractor.

Inductive exn : Type := IndexError | ValueError.

(** How a loop body ends: normally, with the state and [ctl] it leaves,
    or in the handler [except (ValueError, IndexError): continue], with
    the caught exception and the state at the [continue]. An exception
    that no handler of the body catches is the [inl] of [exn + flow]. *)
Inductive flow : Type :=
| Normal (st : scan) (c : ctl)
| Handled (e : exn) (st : scan).

(** What the loop goes on with. *)
Definition resume (f : flow) : scan * ctl :=
  match f with
  | Normal st c => (st, c)
  | Handled _ st => (st, Next)
  end.

(** [parts[k]] *)
Definition subscript (parts : list string) (k : nat) : exn + string :=
  match nth_error parts k with
  | Some tok => inr tok
  | None => inl IndexError
  end.

(** [s[0]] *)
Definition first_char (s : string) : exn + ascii :=
  match s with
  | String c _ => inr c
  | EmptyString => inl IndexError
  end.

(** [float(tok)] *)
Definition to_float (tok : string) : exn + float :=
  match float_of_str tok with
  | Some x => inr x
  | None => inl ValueError
  end.

(** [float(parts[k])] *)
Definition float_item (parts : list string) (k : nat) : exn + float :=
  match subscript parts k with
  | inr tok => to_float tok
  | inl e => inl e
  end.

(** [in_data_section and line.strip() and line.lstrip()[0].isdigit()],
    evaluated from left to right; it is outside the [try]. *)
Definition data_line_test (line : string) (st : scan) : exn + bool :=
  if in_data_section st then
    if truthy (strip line) then
      match first_char (lstrip line) with
      | inr c => inr (isdigit_char c)
      | inl e => inl e
      end
    else inr false
  else inr false.

(** The body of the [try] of pass 1. *)
Definition try_row1 (parts : list string) (st : scan) : exn + scan :=
  match float_item parts (res_idx parts) with
  | inr res_sq =>
      match float_item parts (ln_idx parts) with
      | inr ln_i => inr (append_y ln_i (append_x res_sq st))
      | inl e => inl e
      end
  | inl e => inl e
  end.

(** The data-line statement of pass 1. *)
Definition data_line1 (line : string) (st : scan) : exn + flow :=
  match data_line_test line st with
  | inr true =>
      let parts := split line in
      if 8 <=? List.length parts then
        match try_row1 parts st with
        | inr st' => inr (Normal st' Next)
        | inl e => inr (Handled e st)
        end
      else inr (Normal st Next)
  | inr false => inr (Normal st Next)
  | inl e => inl e
  end.

Definition pass1_body (i : Z) (line : string) (st : scan) : exn + flow :=
  let st := mark i line st in
  if after_header i st then
    if contains "$" line && negb (in_data_section st) then
      inr (Normal (set_section true st) Next)
    else
      match data_line1 line st with
      | inr (Normal st' _) =>
          let (st'', c) := section_end1 line st' in inr (Normal st'' c)
      | inr (Handled e st') => inr (Handled e st')
      | inl e => inl e
      end
  else inr (Normal st Next).

(** [len(parts) >= 8 and parts[0].isdigit()]; it is outside the [try]. *)
Definition row_test (parts : list string) : exn + bool :=
  if 8 <=? List.length parts then
    match subscript parts 0 with
    | inr tok => inr (isdigit tok)
    | inl e => inl e
    end
  else inr false.

(** The body of the [try] of pass 2. *)
Definition try_row2 (parts : list string) (st : scan) : exn + scan :=
  match float_item parts 4 with
  | inr res_sq =>
      match float_item parts 7 with
      | inr ln_i =>
          if gt_zero res_sq
          then inr (set_section true (append_y ln_i (append_x res_sq st)))
          else inr st
      | inl e => inl e
      end
  | inl e => inl e
  end.

Definition pass2_body (i : Z) (line : string) (st : scan) : exn + flow :=
  let parts := split line in
  match row_test parts with
  | inr true =>
      match try_row2 parts st with
      | inr st' => inr (Normal st' Next)
      | inl e => inr (Handled e st)
      end
  | inr false =>
      if in_data_section st && (List.length parts <? 8)
      then inr (Normal st Break)
      else inr (Normal st Next)
  | inl e => inl e
  end.

End Raising.

(* ================================================================== *)
(** ** The axis transforms on the reals *)
(* ================================================================== *)

(** The two closures of [create_wilson_plot] read as functions on the
    reals: [np.maximum] is [Rmax], and division, square and square root
    are exact. *)
Module Plotter.

Local Open Scope R_scope.

(** The literal [1e-10]. *)
Definition epsilon : R := / 10 ^ 10.

(** [np.sqrt(1.0 / np.maximum(x, 1e-10))] *)
Definition inv_d_sq_to_resolution (x : R) : R :=
  sqrt (1 / Rmax x epsilon).

(** [1.0 / np.power(np.maximum(x, 1e-10), 2)] *)
Definition resolution_to_inv_d_sq (x : R) : R :=
  1 / (Rmax x epsilon) ^ 2.

End Plotter.

(* ================================================================== *)
(** ** The ticks of the resolution axis *)
(* ================================================================== *)

Module Axis.

Import Plotter.
Local Open Scope R_scope.

(** [a <= b] and [a > b] on floats, as tests. *)
Definition Rleb (a b : R) : bool := if Rle_dec a b then true else false.
Definition Rgtb (a b : R) : bool := if Rlt_dec b a then true else false.

(** The two candidate lists of [create_wilson_plot]. *)
Definition coarse : list R := [5.5; 3.0; 2.0; 1.5; 1.3; 1.2].
Definition fine : list R :=
  [5.5; 3.0; 2.0; 1.5; 1.4; 1.3; 1.2; 1.1; 1.0; 0.9; 0.8].

(** [res_max = inv_d_sq_to_resolution(x_min)] and
    [res_min = inv_d_sq_to_resolution(x_max)], where [x_min, x_max] are
    the limits [ax1.get_xlim()] returns. *)
Definition res_max (x_min : R) : R := inv_d_sq_to_resolution x_min.
Definition res_min (x_max : R) : R := inv_d_sq_to_resolution x_max.

(** [resolutions], chosen by [if res_min > 1.2]. *)
Definition resolutions (x_max : R) : list R :=
  if Rgtb (res_min x_max) 1.2 then coarse else fine.

(** [[r for r in resolutions if res_min <= r <= res_max]] *)
Definition tick_resolutions (x_min x_max : R) : list R :=
  filter (fun r => Rleb (res_min x_max) r && Rleb r (res_max x_min))
         (resolutions x_max).

(** [[resolution_to_inv_d_sq(r) for r in tick_resolutions]] *)
Definition tick_positions (x_min x_max : R) : list R :=
  map resolution_to_inv_d_sq (tick_resolutions x_min x_max).

End Axis.

(* ================================================================== *)
(** ** The axis transforms on binary64 values *)
(* ================================================================== *)

(** Float literals and the numpy functions of the two closures, on
    IEEE-754 binary64 values with round-to-nearest-even. *)
Module Binary64.

Import PyFloat.
Local Open Scope Z_scope.

(** A float literal of the source. *)
Definition literal (s : string) : float :=
  match float_of_str s with
  | Some x => x
  | None => nan
  end.

Definition isnan (x : float) : bool :=
  match x with
  | S754_nan => true
  | _ => false
  end.

(** [np.maximum(x1, x2)] on one element: [x1] when [x1 >= x2] or [x1]
    is NaN, else [x2]. *)
Definition maximum (x1 x2 : float) : float :=
  if SFleb x2 x1 || isnan x1 then x1 else x2.

(** [x1 / x2] and [np.sqrt(x)], correctly rounded; a zero divisor gives
    an infinity or NaN, not an exception. *)
Definition divide (x1 x2 : float) : float := SFdiv prec emax x1 x2.
Definition sqrt (x : float) : float := SFsqrt prec emax x.

(** [np.power(x, 2)]: the correctly rounded square. *)
Definition square (x : float) : float := SFmul prec emax x x.

(** The values of the binary64 format. *)
Definition binary64 (x : float) : Prop := valid_binary prec emax x = true.

(** A positive finite value. *)
Definition pos_finite (x : float) : Prop :=
  exists p e, x = S754_finite false p e
              /\ Z.log2 (Zpos p) <= 52 /\ -1074 <= e <= 971.

(** A positive value: positive finite or [+inf]. *)
Definition positive64 (x : float) : Prop :=
  x = S754_infinity false \/ pos_finite x.

(** A positive normal value whose exponent is at least that of
    [1e-10]. *)
Definition above_floor (x : float) : Prop :=
  exists p e, x = S754_finite false p e
              /\ Z.log2 (Zpos p) = 52 /\ -86 <= e <= 971.

(** The number of low bits that rounding to binary64 removes from the
    mantissa [m] at exponent [e]. *)
Definition drop (m e : Z) : Z :=
  Z.max 0 (fexp prec emax (Zdigits2 m + e) - e).

(** [2^512], the least value whose square overflows. *)
Definition two512 : float := S754_finite false 4503599627370496 460.

End Binary64.

Module Plotter64.

Import PyFloat Binary64.

(** The literals [1.0] and [1e-10]. *)
Definition one : float := Eval vm_compute in literal "1.0".
Definition epsilon : float := Eval vm_compute in literal "1e-10".

(** [np.sqrt(1.0 / np.maximum(x, 1e-10))] *)
Definition inv_d_sq_to_resolution (x : float) : float :=
  sqrt (divide one (maximum x epsilon)).

(** [1.0 / np.power(np.maximum(x, 1e-10), 2)] *)
Definition resolution_to_inv_d_sq (x : float) : float :=
  divide one (square (maximum x epsilon)).

End Plotter64.

(** The ticks of the resolution axis, with the comparisons of the
    source made on binary64 values. *)
Module Axis64.

Import PyFloat Binary64 Plotter64.

Definition coarse : list float :=
  map literal ["5.5"; "3.0"; "2.0"; "1.5"; "1.3"; "1.2"].
Definition fine : list float :=
  map literal ["5.5"; "3.0"; "2.0"; "1.5"; "1.4"; "1.3"; "1.2"; "1.1";
               "1.0"; "0.9"; "0.8"].

Definition res_max (x_min : float) : float := inv_d_sq_to_resolution x_min.
Definition res_min (x_max : float) : float := inv_d_sq_to_resolution x_max.

(** [resolutions], chosen by [if res_min > 1.2]. *)
Definition resolutions (x_max : float) : list float :=
  if SFltb (literal "1.2") (res_min x_max) then coarse else fine.

(** [[r for r in resolutions if res_min <= r <= res_max]] *)
Definition tick_resolutions (x_min x_max : float) : list float :=
  filter (fun r => SFleb (res_min x_max) r && SFleb r (res_max x_min))
         (resolutions x_max).

(** [[resolution_to_inv_d_sq(r) for r in tick_resolutions]] *)
Definition tick_positions (x_min x_max : float) : list float :=
  map resolution_to_inv_d_sq (tick_resolutions x_min x_max).

End Axis64.

(* ================================================================== *)
(** ** [create_wilson_plot] and the [__main__] block *)
(* ================================================================== *)

Module Main.

Import PyFloat Extractor.

Section Program.

(** The file system: the lines of a file, or [None] when opening or
    reading it raises. *)
Variable readlines : string -> option (list string).

(** The [try] block of [create_wilson_plot] (numpy and matplotlib
    calls up to [savefig]): [true] when it reaches [return True],
    [false] when a statement raises and the handler returns [False]. *)
Variable render : list float -> list float -> string -> bool.

(** Truth value of a list: non-empty. *)
Definition nonempty {A : Type} (l : list A) : bool :=
  match l with
  | [] => false
  | _ => true
  end.

Definition create_wilson_plot (resolution_inv_sq ln_intensity : list float)
           (output_file : string) : bool :=
  if negb (nonempty resolution_inv_sq)
     || (List.length resolution_inv_sq <? 2)
  then false
  else render resolution_inv_sq ln_intensity output_file.

(** [if resolution_inv_sq and ln_intensity] on the pair returned by
    [parse_truncate_log]; [None] is falsy. *)
Definition extracted (r : option (list float * list float)) : bool :=
  match r with
  | Some (xs, ys) => nonempty xs && nonempty ys
  | None => false
  end.

(** The exit code of the script run with [sys.argv = argv]. *)
Definition main (argv : list string) : Z :=
  if List.length argv <? 3 then 1%Z
  else
    let log_file := nth 1 argv "" in
    let output_file := nth 2 argv "" in
    let r := parse_truncate_log readlines log_file in
    if extracted r then
      match r with
      | Some (xs, ys) =>
          if create_wilson_plot xs ys output_file then 0%Z else 1%Z
      | None => 1%Z
      end
    else 1%Z.

End Program.

End Main.

(* ================================================================== *)
(** ** The report-level notions of the specification *)
(* ================================================================== *)

Module ReportSpec.

Import PyStr PyFloat Extractor.

(** What the claims speak of, in terms of the report. *)

(** The two lists hold as many values. *)
Definition paired (st : scan) : Prop :=
  List.length (resolution_inv_sq st) = List.length (ln_intensity st).

(** The values of a row: tokens 4 and 7 of a line of at least 8 tokens,
    when both are accepted by [float]. *)
Definition row1 (line : string) : option (float * float) :=
  let parts := split line in
  if 8 <=? List.length parts then
    match float_at parts 4, float_at parts 7 with
    | Some x, Some y => Some (x, y)
    | _, _ => None
    end
  else None.

(** The rows pass 2 accepts: at least 8 tokens, the first one made of
    digits ([str.isdigit]), token 4 a float greater than 0, token 7 a
    float. *)
Definition row2 (line : string) : option (float * float) :=
  let parts := split line in
  if (8 <=? List.length parts) && first_isdigit parts then
    match float_at parts 4, float_at parts 7 with
    | Some x, Some y => if gt_zero x then Some (x, y) else None
    | _, _ => None
    end
  else None.

Definition accepts2 (line : string) : bool :=
  match row2 line with
  | Some _ => true
  | None => false
  end.

(** A line with fewer than 8 tokens. *)
Definition ragged (line : string) : bool :=
  List.length (split line) <? 8.

(** The lines pass 2 reads: all of them up to, and without, the first
    ragged line that comes after an accepted row. [started] tells
    whether a row has been accepted already. *)
Fixpoint scanned2 (started : bool) (lines : list string) : list string :=
  match lines with
  | [] => []
  | l :: r =>
      if started && ragged l then []
      else l :: scanned2 (started || accepts2 l) r
  end.

(** [in_order f lines xs ys]: the points [(xs[k], ys[k])] are the values
    [f] reads from lines of the report, taken at increasing positions. *)
Inductive in_order (f : string -> option (float * float)) :
  list string -> list float -> list float -> Prop :=
| in_order_done lines : in_order f lines [] []
| in_order_skip l lines xs ys :
    in_order f lines xs ys -> in_order f (l :: lines) xs ys
| in_order_take l lines x y xs ys :
    f l = Some (x, y) -> in_order f lines xs ys ->
    in_order f (l :: lines) (x :: xs) (y :: ys).

(** What one iteration does to the two lists: nothing, or one value
    appended to each, read by [f] from the line. *)
Inductive effect (f : string -> option (float * float))
          (line : string) (st st' : scan) : Prop :=
| effect_none :
    resolution_inv_sq st' = resolution_inv_sq st ->
    ln_intensity st' = ln_intensity st ->
    effect f line st st'
| effect_point x y :
    f line = Some (x, y) ->
    resolution_inv_sq st' = resolution_inv_sq st ++ [x] ->
    ln_intensity st' = ln_intensity st ++ [y] ->
    effect f line st st'.

(** The index of the first line that contains a marker. *)
Fixpoint first_marker (lines : list string) : option nat :=
  match lines with
  | [] => None
  | l :: r =>
      if has_marker l then Some 0
      else option_map S (first_marker r)
  end.

(** The indices of the lines that pass 1 looks at as possible data
    lines: those at which the test [data_header_line > 0 and
    i > data_header_line] holds while the loop runs. *)
Fixpoint considered (i : Z) (lines : list string) (st : scan) : list Z :=
  match lines with
  | [] => []
  | line :: rest =>
      let here := if after_header i (mark i line st) then [i] else [] in
      match pass1_body i line st with
      | (_, Break) => here
      | (st', Next) => here ++ considered (i + 1) rest st'
      end
  end.

Definition considered1 (lines : list string) : list Z :=
  considered 0 lines init.

(** Whether the test [if not resolution_inv_sq] after pass 1 holds. *)
Definition fallback_taken (lines : list string) : bool :=
  negb (Main.nonempty (resolution_inv_sq (pass1 lines))).

(** A line of the report as [readlines] gives it. *)
Definition ln (s : string) : string :=
  String.append s (String (ascii_of_nat 10) EmptyString).

(** Reports used as concrete inputs. *)

(** A marker on the very first line, then the table. *)
Definition report_marker_first : list string :=
  [ ln "Range N_obs"; ln "$$"; ln "1 2 3 4 -0.5 6 7 1.5"; ln "$$" ].

(** The same report below one title line. *)
Definition report_marker_second : list string :=
  ln "TRUNCATE" :: report_marker_first.

(** No marker; two rows separated by an empty line. *)
Definition report_ragged : list string :=
  [ ln "1 2 3 4 0.5 6 7 1.5"; ln ""; ln "2 2 3 4 0.75 6 7 1.25" ].

(** No marker; five rows. *)
Definition report_plain : list string :=
  [ ln "1 10 10 0 0.01 5.0 1 2.5";
    ln "2 10 10 0 0.02 5.0 1 2.25";
    ln "3 10 10 0 0.03 5.0 1 2.0";
    ln "4 10 10 0 0.04 5.0 1 1.75";
    ln "5 10 10 0 0.05 5.0 1 1.5" ].

(** A table whose row holds [inf] and [nan], after a marker. *)
Definition report_inf_marked : list string :=
  [ ln "TRUNCATE"; ln "Range N_obs"; ln "$$"; ln "1 2 3 4 inf 6 7 nan" ].

(** A row that holds [inf], without a marker. *)
Definition report_inf_plain : list string :=
  [ ln "1 2 3 4 1e999 6 7 0.5" ].

End ReportSpec.

(* ================================================================== *)
(** ** Further notions on the scans *)
(* ================================================================== *)

Module ScanSpec.

Import PyStr PyFloat Extractor ReportSpec.

(** Whether a loop over [lines] leaves through [break]. *)
Fixpoint broke (body : Z -> string -> scan -> scan * ctl)
         (i : Z) (lines : list string) (st : scan) : bool :=
  match lines with
  | [] => false
  | line :: rest =>
      match body i line st with
      | (_, Break) => true
      | (st', Next) => broke body (i + 1) rest st'
      end
  end.

(** The rows pass 1 can read: no marker on the line, a digit as first
    non-blank character, at least 8 tokens, tokens 4 and 7 accepted by
    [float]. *)
Definition candidate1 (line : string) : option (float * float) :=
  if has_marker line then None
  else if starts_with_number line then row1 line
  else None.

(** Whether [f] reads a point from the line. *)
Definition reads (f : string -> option (float * float)) (line : string) : bool :=
  match f line with
  | Some _ => true
  | None => false
  end.

End ScanSpec.


(* ================================================================== *)
(** ** Checks of the embedding on concrete inputs *)
(* ================================================================== *)

Import PyStr PyFloat Extractor ReportSpec.

Example split_drops_blanks :
  split (ln "   1  nref 2.5   x ") = ["1"; "nref"; "2.5"; "x"].
Proof. reflexivity. Qed.

Example strip_blank_line : strip (ln "   ") = "".
Proof. reflexivity. Qed.

Example contains_marker :
  contains "Range N_obs" (ln "   Range N_obs   N_unq") = true
  /\ contains "Range N_obs" (ln "Range  N_obs") = false
  /\ contains "$" (ln " $$") = true.
Proof. repeat split. Qed.

Example isdigit_tokens :
  map isdigit ["12"; "007"; ""; "1."; "-1"; "1e5"]
  = [true; true; false; false; false; false].
Proof. reflexivity. Qed.

Example float_of_str_tenth :
  float_of_str "0.1" = Some (S754_finite false 7205759403792794 (-56)).
Proof. vm_compute. reflexivity. Qed.

Example float_of_str_forms :
  map float_of_str ["1"; "1."; "+1.0"; "1e0"; "10e-1"; "0_1.0"]
  = repeat (Some (S754_finite false 4503599627370496 (-52))) 6.
Proof. vm_compute. reflexivity. Qed.

Example float_of_str_special :
  map float_of_str ["inf"; "+Infinity"; "-INF"; "nan"; "1e999"; "1e-999"; "-0"]
  = [Some pinf; Some pinf; Some (S754_infinity true); Some nan; Some pinf;
     Some (S754_zero false); Some (S754_zero true)].
Proof. vm_compute. reflexivity. Qed.

Example float_of_str_value_error :
  map float_of_str [""; "."; "e5"; "1e"; "1e+"; "1__0"; "_1"; "1_"; "1_.5";
                    "0x10"; "1.5."; "infx"; "N_obs"; "--1"]
  = repeat None 14.
Proof. vm_compute. reflexivity. Qed.

Example gt_zero_values :
  map gt_zero [pinf; nan; S754_zero false; S754_zero true;
               S754_infinity true; S754_finite false 1 (-1074)]
  = [true; false; false; false; false; true].
Proof. reflexivity. Qed.

(** The two literals of the closures, and [2^512] as Python prints
    it. *)
Example closure_literals :
  float_of_str "1.0" = Some Plotter64.one
  /\ float_of_str "1e-10" = Some Plotter64.epsilon
  /\ float_of_str "1.3407807929942597e154" = Some Binary64.two512.
Proof.
  vm_compute. repeat split.
Qed.

(* ================================================================== *)
(** ** Properties of the extractor *)
(* ================================================================== *)

Ltac split_match :=
  match goal with
  | |- context [match ?x with _ => _ end] => destruct x eqn:?
  | H : context [match ?x with _ => _ end] |- _ => destruct x eqn:?
  end.

Ltac pair_inv :=
  repeat match goal with
  | H : (_, _) = (_, _) |- _ => inversion H; subst; clear H
  | H : Some _ = Some _ |- _ => inversion H; subst; clear H
  | H : Some _ = None |- _ => discriminate H
  | H : None = Some _ |- _ => discriminate H
  end.

Section Loops.

(** An invariant of the body of a loop holds when the loop ends,
    whether by exhaustion or by [break]. *)
Lemma for_lines_invariant (P : scan -> Prop)
      (body : Z -> string -> scan -> scan * ctl) :
  (forall i line st, P st -> P (fst (body i line st))) ->
  forall lines i st, P st -> P (for_lines body i lines st).
Proof.
  intros Hbody lines.
  induction lines as [|line rest IH]; intros i st Hst; simpl.
  - exact Hst.
  - specialize (Hbody i line st Hst).
    destruct (body i line st) as [st' [|]]; simpl in Hbody.
    + apply IH. exact Hbody.
    + exact Hbody.
Qed.

(** With at least 8 tokens the conditional indices are 4 and 7. *)
Lemma res_idx_guarded (parts : list string) :
  8 <= List.length parts -> res_idx parts = 4.
Proof.
  intros H. unfold res_idx.
  destruct (4 <? List.length parts) eqn:E; [reflexivity|].
  apply Nat.ltb_ge in E. lia.
Qed.

Lemma ln_idx_guarded (parts : list string) :
  8 <= List.length parts -> ln_idx parts = 7.
Proof.
  intros H. unfold ln_idx.
  destruct (7 <? List.length parts) eqn:E; [reflexivity|].
  apply Nat.ltb_ge in E. lia.
Qed.

Lemma try_row1_effect (line : string) (st st' : scan) :
  8 <= List.length (split line) ->
  try_row1 (split line) st = Some st' ->
  effect row1 line st st'.
Proof.
  intros Hlen Htry. unfold try_row1 in Htry.
  rewrite (res_idx_guarded _ Hlen), (ln_idx_guarded _ Hlen) in Htry.
  destruct (float_at (split line) 4) as [x|] eqn:Ex; [|discriminate].
  destruct (float_at (split line) 7) as [y|] eqn:Ey; [|discriminate].
  inversion Htry; subst; clear Htry.
  apply effect_point with (x := x) (y := y); simpl; try reflexivity.
  unfold row1. apply Nat.leb_le in Hlen. rewrite Hlen, Ex, Ey. reflexivity.
Qed.

Lemma data_line1_effect (line : string) (st st' : scan) :
  data_line1 line st = Some st' -> effect row1 line st st'.
Proof.
  unfold data_line1. intros H.
  destruct (in_data_section st && starts_with_number line).
  - destruct (8 <=? List.length (split line)) eqn:E.
    + apply Nat.leb_le in E. apply try_row1_effect; assumption.
    + inversion H; subst. apply effect_none; reflexivity.
  - inversion H; subst. apply effect_none; reflexivity.
Qed.

Lemma section_end1_same (line : string) (st : scan) :
  fst (section_end1 line st) = st.
Proof.
  unfold section_end1. repeat split_match; reflexivity.
Qed.

Lemma mark_lists (i : Z) (line : string) (st : scan) :
  resolution_inv_sq (mark i line st) = resolution_inv_sq st
  /\ ln_intensity (mark i line st) = ln_intensity st
  /\ in_data_section (mark i line st) = in_data_section st.
Proof.
  unfold mark. destruct (has_marker line); simpl; auto.
Qed.

Lemma pass1_body_effect (i : Z) (line : string) (st : scan) :
  effect row1 line st (fst (pass1_body i line st)).
Proof.
  destruct (mark_lists i line st) as (Hx & Hy & _).
  unfold pass1_body.
  destruct (after_header i (mark i line st)).
  - destruct (contains "$" line && negb (in_data_section (mark i line st))).
    + apply effect_none; simpl; assumption.
    + destruct (data_line1 line (mark i line st)) as [st'|] eqn:E.
      * rewrite section_end1_same.
        apply data_line1_effect in E.
        destruct E as [Ex Ey | x y Hf Ex Ey].
        -- apply effect_none; congruence.
        -- apply effect_point with (x := x) (y := y); congruence.
      * apply effect_none; simpl; assumption.
  - apply effect_none; simpl; assumption.
Qed.

Lemma try_row2_effect (line : string) (st st' : scan) :
  (8 <=? List.length (split line)) && first_isdigit (split line) = true ->
  try_row2 (split line) st = Some st' ->
  effect row2 line st st'.
Proof.
  intros Hguard Htry. unfold try_row2 in Htry.
  destruct (float_at (split line) 4) as [x|] eqn:Ex; [|discriminate].
  destruct (float_at (split line) 7) as [y|] eqn:Ey; [|discriminate].
  destruct (gt_zero x) eqn:Eg; inversion Htry; subst; clear Htry.
  - apply effect_point with (x := x) (y := y); simpl; try reflexivity.
    unfold row2. rewrite Hguard, Ex, Ey, Eg. reflexivity.
  - apply effect_none; reflexivity.
Qed.

Lemma pass2_body_effect (i : Z) (line : string) (st : scan) :
  effect row2 line st (fst (pass2_body i line st)).
Proof.
  unfold pass2_body.
  destruct ((8 <=? List.length (split line)) && first_isdigit (split line))
    eqn:Eg.
  - destruct (try_row2 (split line) st) as [st'|] eqn:E; simpl.
    + apply try_row2_effect; assumption.
    + apply effect_none; reflexivity.
  - destruct (in_data_section st && (List.length (split line) <? 8));
      apply effect_none; reflexivity.
Qed.

Lemma effect_paired f line st st' :
  effect f line st st' -> paired st -> paired st'.
Proof.
  unfold paired.
  intros [Ex Ey | x y _ Ex Ey] H; rewrite Ex, Ey.
  - exact H.
  - rewrite !length_app. simpl. lia.
Qed.

End Loops.

Section Passes.

(** The values a loop appends are read from the lines in report order. *)
Lemma for_lines_in_order (f : string -> option (float * float))
      (body : Z -> string -> scan -> scan * ctl) :
  (forall i line st, effect f line st (fst (body i line st))) ->
  forall lines i st,
  exists xs ys,
    in_order f lines xs ys
    /\ resolution_inv_sq (for_lines body i lines st)
       = resolution_inv_sq st ++ xs
    /\ ln_intensity (for_lines body i lines st) = ln_intensity st ++ ys.
Proof.
  intros Hbody lines.
  induction lines as [|line rest IH]; intros i st; simpl.
  - exists [], []. rewrite !app_nil_r. repeat split. constructor.
  - pose proof (Hbody i line st) as He.
    destruct (body i line st) as [st' c]; simpl in He.
    destruct c.
    + destruct (IH (i + 1)%Z st') as (xs & ys & Hio & Hx & Hy).
      destruct He as [Ex Ey | x y Hf Ex Ey].
      * exists xs, ys. rewrite Hx, Hy, Ex, Ey.
        repeat split. apply in_order_skip. exact Hio.
      * exists (x :: xs), (y :: ys). rewrite Hx, Hy, Ex, Ey, <- !app_assoc.
        repeat split. apply in_order_take; assumption.
    + destruct He as [Ex Ey | x y Hf Ex Ey].
      * exists [], []. rewrite !app_nil_r. repeat split; auto. constructor.
      * exists [x], [y]. repeat split; auto.
        apply in_order_take; [assumption | constructor].
Qed.

Lemma in_order_weaken (f g : string -> option (float * float)) :
  (forall l p, f l = Some p -> g l = Some p) ->
  forall lines xs ys, in_order f lines xs ys -> in_order g lines xs ys.
Proof.
  intros Hfg lines xs ys H.
  induction H.
  - constructor.
  - apply in_order_skip; assumption.
  - apply in_order_take; auto.
Qed.

Lemma row2_row1 (l : string) (p : float * float) :
  row2 l = Some p -> row1 l = Some p.
Proof.
  unfold row2, row1. intros H.
  destruct (8 <=? List.length (split l)); simpl in H; [|discriminate].
  destruct (first_isdigit (split l)); [|discriminate].
  destruct (float_at (split l) 4) as [x|]; [|discriminate].
  destruct (float_at (split l) 7) as [y|]; [|discriminate].
  destruct (gt_zero x); [assumption | discriminate].
Qed.

Lemma in_order_length f lines xs ys :
  in_order f lines xs ys -> List.length xs = List.length ys.
Proof.
  induction 1; simpl; auto.
Qed.

(** Every value of an ordered reading is read by [f] from some line. *)
Lemma in_order_source f lines xs ys :
  in_order f lines xs ys ->
  Forall (fun x => exists line y, In line lines /\ f line = Some (x, y)) xs.
Proof.
  induction 1 as [lines | l lines xs ys H IH | l lines x y xs ys Hf H IH].
  - constructor.
  - eapply Forall_impl; [|exact IH].
    intros x (line & y & Hin & Hf). exists line, y. split; [right|]; assumption.
  - constructor.
    + exists l, y. split; [left; reflexivity | assumption].
    + eapply Forall_impl; [|exact IH].
      intros x' (line & y' & Hin & Hf'). exists line, y'.
      split; [right|]; assumption.
Qed.

(** Both loops keep the two lists paired. *)
Lemma pass1_paired (lines : list string) : paired (pass1 lines).
Proof.
  unfold pass1. apply for_lines_invariant.
  - intros i line st. apply effect_paired with (f := row1) (line := line).
    apply pass1_body_effect.
  - reflexivity.
Qed.

Lemma pass2_paired (lines : list string) (st : scan) :
  paired st -> paired (pass2 lines st).
Proof.
  intros H. unfold pass2. apply for_lines_invariant.
  - intros i line st0. apply effect_paired with (f := row2) (line := line).
    apply pass2_body_effect.
  - exact H.
Qed.

Lemma after_pass1_paired (lines : list string) : paired (after_pass1 lines).
Proof.
  unfold after_pass1.
  destruct (resolution_inv_sq (pass1 lines)) eqn:E.
  - apply pass2_paired, pass1_paired.
  - apply pass1_paired.
Qed.

(** The readings of the two passes. *)
Lemma pass1_in_order (lines : list string) :
  in_order row1 lines (resolution_inv_sq (pass1 lines))
           (ln_intensity (pass1 lines)).
Proof.
  destruct (for_lines_in_order row1 pass1_body pass1_body_effect lines 0%Z init)
    as (xs & ys & Hio & Hx & Hy).
  unfold pass1. rewrite Hx, Hy. exact Hio.
Qed.

Lemma pass2_in_order (lines : list string) (st : scan) :
  resolution_inv_sq st = [] ->
  ln_intensity st = [] ->
  in_order row2 lines (resolution_inv_sq (pass2 lines st))
           (ln_intensity (pass2 lines st)).
Proof.
  intros Hx0 Hy0.
  destruct (for_lines_in_order row2 pass2_body pass2_body_effect lines 0%Z
              (set_section false st)) as (xs & ys & Hio & Hx & Hy).
  unfold pass2. rewrite Hx, Hy. simpl. rewrite Hx0, Hy0. exact Hio.
Qed.

Lemma paired_nil (st : scan) :
  paired st -> resolution_inv_sq st = [] -> ln_intensity st = [].
Proof.
  unfold paired. intros H E. rewrite E in H. simpl in H.
  destruct (ln_intensity st); [reflexivity | discriminate].
Qed.

(** Without a marker, pass 1 never leaves its initial state. *)
Lemma pass1_body_unmarked (i : Z) (line : string) (st : scan) :
  has_marker line = false ->
  (data_header_line st <= 0)%Z ->
  pass1_body i line st = (st, Next).
Proof.
  intros Hm Hd. unfold pass1_body, mark, after_header. rewrite Hm.
  replace (0 <? data_header_line st)%Z with false; [reflexivity|].
  symmetry. apply Z.ltb_ge. exact Hd.
Qed.

Lemma for_lines_unmarked (lines : list string) :
  Forall (fun l => has_marker l = false) lines ->
  forall i st, (data_header_line st <= 0)%Z ->
  for_lines pass1_body i lines st = st.
Proof.
  induction 1 as [|line rest Hm _ IH]; intros i st Hd; simpl.
  - reflexivity.
  - rewrite pass1_body_unmarked by assumption. apply IH. exact Hd.
Qed.






End Passes.

Section Result.

Lemma parse_lines_some (lines : list string) (xs ys : list float) :
  parse_lines lines = Some (xs, ys) ->
  xs = resolution_inv_sq (after_pass1 lines)
  /\ ys = ln_intensity (after_pass1 lines)
  /\ xs <> [].
Proof.
  unfold parse_lines, result. intros H.
  destruct (resolution_inv_sq (after_pass1 lines)) eqn:E; [discriminate|].
  inversion H; subst. repeat split; congruence.
Qed.

Lemma parse_lines_none (lines : list string) :
  parse_lines lines = None <-> resolution_inv_sq (after_pass1 lines) = [].
Proof.
  unfold parse_lines, result.
  destruct (resolution_inv_sq (after_pass1 lines)); split; intros H;
    congruence.
Qed.

Lemma fallback_taken_true (lines : list string) :
  fallback_taken lines = true <-> resolution_inv_sq (pass1 lines) = [].
Proof.
  unfold fallback_taken.
  destruct (resolution_inv_sq (pass1 lines)); simpl; split; intros H;
    congruence.
Qed.

Lemma after_pass1_cases (lines : list string) :
  after_pass1 lines
  = if fallback_taken lines then pass2 lines (pass1 lines) else pass1 lines.
Proof.
  unfold after_pass1, fallback_taken.
  destruct (resolution_inv_sq (pass1 lines)); reflexivity.
Qed.

Lemma after_pass1_fallback_in_order (lines : list string) :
  fallback_taken lines = true ->
  in_order row2 lines (resolution_inv_sq (after_pass1 lines))
           (ln_intensity (after_pass1 lines)).
Proof.
  intros H. rewrite after_pass1_cases, H.
  apply fallback_taken_true in H.
  apply pass2_in_order; [exact H|].
  apply paired_nil; [apply pass1_paired | exact H].
Qed.

Lemma after_pass1_in_order (lines : list string) :
  in_order row1 lines (resolution_inv_sq (after_pass1 lines))
           (ln_intensity (after_pass1 lines)).
Proof.
  destruct (fallback_taken lines) eqn:E.
  - apply in_order_weaken with (f := row2); [exact row2_row1|].
    apply after_pass1_fallback_in_order. exact E.
  - rewrite after_pass1_cases, E. apply pass1_in_order.
Qed.

Lemma length_zero_nil {A : Type} (l : list A) :
  List.length l = 0 <-> l = [].
Proof.
  destruct l; simpl; split; intros H; congruence.
Qed.

(** Without a ragged line, pass 2 reads the whole report. *)
Lemma scanned2_whole (lines : list string) (started : bool) :
  Forall (fun l => ragged l = false) lines -> scanned2 started lines = lines.
Proof.
  intros H. revert started.
  induction H as [|l r Hl _ IH]; intros started; simpl.
  - reflexivity.
  - rewrite Hl, andb_false_r, IH. reflexivity.
Qed.

(** Lines without a marker are never looked at while the recorded header
    index is not positive. *)
Lemma considered_unmarked (lines : list string) :
  Forall (fun l => has_marker l = false) lines ->
  forall i st, (data_header_line st <= 0)%Z -> considered i lines st = [].
Proof.
  induction 1 as [|line rest Hm _ IH]; intros i st Hd.
  - reflexivity.
  - cbn [considered].
    rewrite (pass1_body_unmarked i line st Hm Hd).
    unfold mark, after_header. rewrite Hm.
    replace (0 <? data_header_line st)%Z with false
      by (symmetry; apply Z.ltb_ge; exact Hd).
    simpl. apply IH. exact Hd.
Qed.

(** When the only marker of a report is on its first line, pass 1
    records index 0, looks at no line and collects nothing. *)
Lemma pass1_marker_on_first_line_only (first : string) (rest : list string) :
  has_marker first = true ->
  Forall (fun l => has_marker l = false) rest ->
  pass1 (first :: rest) = set_header 0 init
  /\ considered1 (first :: rest) = [].
Proof.
  intros Hf Hrest.
  assert (Hbody : pass1_body 0 first init = (set_header 0 init, Next)).
  { unfold pass1_body, mark. rewrite Hf. reflexivity. }
  split.
  - unfold pass1. cbn [for_lines]. rewrite Hbody.
    apply for_lines_unmarked; [exact Hrest | simpl; lia].
  - unfold considered1. cbn [considered]. rewrite Hbody.
    unfold mark. rewrite Hf. simpl.
    apply considered_unmarked; [exact Hrest | simpl; lia].
Qed.

End Result.

(** *** The claims on the extractor *)

(** C1 (the code departs from the claim). The claim: pass 1 records the
    first marker line and looks for data rows on every line after it,
    wherever that marker line is, the first line of the report included.
    Evaluated on a report whose first line holds the marker: the marker
    is found at index 0 and recorded, yet no line is looked at, pass 1
    collects nothing and, the row's x being negative, the function
    returns [(None, None)]. The same report one line lower is read as
    the claim says: the lines after the marker are looked at and the row
    is returned. *)
Theorem C1_marker_on_first_line :
  first_marker report_marker_first = Some 0
  /\ data_header_line (pass1 report_marker_first) = 0%Z
  /\ considered1 report_marker_first = []
  /\ resolution_inv_sq (pass1 report_marker_first) = []
  /\ parse_lines report_marker_first = None
  /\ first_marker report_marker_second = Some 1
  /\ considered1 report_marker_second = [2; 3; 4]%Z
  /\ (exists x y,
        float_of_str "-0.5" = Some x /\ float_of_str "1.5" = Some y
        /\ parse_lines report_marker_second = Some ([x], [y])).
Proof.
  repeat split; try (vm_compute; reflexivity).
  eexists; eexists. repeat split; vm_compute; reflexivity.
Qed.




(** C3. For every report: the fallback test after pass 1 holds exactly
    when pass 1 collected zero points, and pass 2 runs exactly then; the
    function returns [(None, None)] exactly when both passes collected
    zero points; otherwise it returns the collected lists, whose points
    are the values of rows of the report in the order of the report. *)
Theorem C3_fallback_and_result (lines : list string) :
  (fallback_taken lines = true
   <-> List.length (resolution_inv_sq (pass1 lines)) = 0)
  /\ after_pass1 lines
     = (if fallback_taken lines then pass2 lines (pass1 lines)
        else pass1 lines)
  /\ (parse_lines lines = None
      <-> List.length (resolution_inv_sq (pass1 lines)) = 0
          /\ List.length (resolution_inv_sq (pass2 lines (pass1 lines))) = 0)
  /\ match parse_lines lines with
     | Some (xs, ys) =>
         xs = resolution_inv_sq (after_pass1 lines)
         /\ ys = ln_intensity (after_pass1 lines)
         /\ in_order row1 lines xs ys
     | None => True
     end.
Proof.
  split; [|split; [|split]].
  - rewrite length_zero_nil. apply fallback_taken_true.
  - apply after_pass1_cases.
  - rewrite parse_lines_none, after_pass1_cases, !length_zero_nil.
    destruct (fallback_taken lines) eqn:E.
    + apply fallback_taken_true in E. tauto.
    + split; [intros H | tauto].
      apply fallback_taken_true in H. congruence.
  - destruct (parse_lines lines) as [[xs ys]|] eqn:Ep; [|exact I].
    apply parse_lines_some in Ep. destruct Ep as (Ex & Ey & _).
    subst xs ys. repeat split. apply after_pass1_in_order.
Qed.

(** C6. For every line pass 1 takes as a candidate row: the row adds a
    point only if it has at least 8 tokens; with at least 8 tokens the
    conditional indices are 4 and 7, so that the [try] block reads x
    from token 4 and y from token 7; the alternatives 1 and 3 are never
    selected where the indices are computed. *)
Theorem C6_pass1_reads_tokens_4_and_7 (line : string) (st : scan) :
  (List.length (split line) < 8 -> data_line1 line st = Some st)
  /\ (8 <= List.length (split line) ->
      res_idx (split line) = 4 /\ ln_idx (split line) = 7
      /\ res_idx (split line) <> 1 /\ ln_idx (split line) <> 3
      /\ try_row1 (split line) st
         = match float_at (split line) 4, float_at (split line) 7 with
           | Some x, Some y => Some (append_y y (append_x x st))
           | _, _ => None
           end).
Proof.
  split.
  - intros H. unfold data_line1.
    apply Nat.leb_gt in H. rewrite H.
    destruct (in_data_section st && starts_with_number line); reflexivity.
  - intros H.
    pose proof (res_idx_guarded _ H) as Hr.
    pose proof (ln_idx_guarded _ H) as Hl.
    repeat split; try congruence.
    unfold try_row1. rewrite Hr, Hl.
    destruct (float_at (split line) 4); [|reflexivity].
    destruct (float_at (split line) 7); reflexivity.
Qed.

(** C6 on a row of 8 tokens and on a row of 3 tokens. *)
Lemma C6_pass1_reads_tokens_4_and_7_witness :
  res_idx (split "1 2 3 4 0.5 6 7 1.5") = 4
  /\ ln_idx (split "1 2 3 4 0.5 6 7 1.5") = 7
  /\ data_line1 "1 2 3" (set_section true init) = Some (set_section true init).
Proof.
  destruct (C6_pass1_reads_tokens_4_and_7 "1 2 3 4 0.5 6 7 1.5" init)
    as [_ H8].
  destruct (C6_pass1_reads_tokens_4_and_7 "1 2 3" (set_section true init))
    as [H3 _].
  assert (E8 : 8 <= List.length (split "1 2 3 4 0.5 6 7 1.5"))
    by (vm_compute; lia).
  destruct (H8 E8) as (Hr & Hl & _).
  split; [exact Hr | split; [exact Hl |]].
  apply H3. vm_compute. lia.
Defined.

(** C7, as stated, fails: a row whose token 4 is [inf] (after a marker)
    or [1e999] (without markers) is accepted, and the x value returned
    is infinite. *)
Lemma C7_infinite_x_returned :
  parse_lines report_inf_marked = Some ([pinf], [nan])
  /\ (exists y, parse_lines report_inf_plain = Some ([pinf], [y]))
  /\ is_finite pinf = false.
Proof.
  split; [vm_compute; reflexivity|].
  split; [eexists; vm_compute; reflexivity | reflexivity].
Qed.

(** C7, amended. For every pair of lists returned by the extractor,
    every x value is the value [float] gives for token 4 of a line of
    the report that has at least 8 tokens, be it finite, infinite or
    NaN; the only other validation is that of pass 2, whose x values are
    greater than 0. *)
Theorem C7_x_is_float_of_token_4 (lines : list string) (xs ys : list float) :
  parse_lines lines = Some (xs, ys) ->
  Forall (fun x => exists line tok,
            In line lines
            /\ 8 <= List.length (split line)
            /\ item (split line) 4 = Some tok
            /\ float_of_str tok = Some x) xs
  /\ (fallback_taken lines = true -> Forall (fun x => gt_zero x = true) xs).
Proof.
  intros Hp. apply parse_lines_some in Hp. destruct Hp as (Ex & Ey & _).
  subst xs ys. split.
  - eapply Forall_impl; [|apply (in_order_source _ _ _ _ (after_pass1_in_order lines))].
    intros x (line & y & Hin & Hrow). unfold row1 in Hrow.
    destruct (8 <=? List.length (split line)) eqn:E8; [|discriminate].
    unfold float_at in Hrow.
    destruct (item (split line) 4) as [tok|] eqn:Et; [|discriminate].
    destruct (float_of_str tok) as [x'|] eqn:Ef; [|discriminate].
    destruct (item (split line) 7) as [tok7|]; [|discriminate].
    destruct (float_of_str tok7); [|discriminate].
    inversion Hrow; subst.
    exists line, tok. apply Nat.leb_le in E8. auto.
  - intros Hf.
    eapply Forall_impl;
      [|apply (in_order_source _ _ _ _ (after_pass1_fallback_in_order lines Hf))].
    intros x (line & y & _ & Hrow). unfold row2 in Hrow.
    destruct ((8 <=? List.length (split line)) && first_isdigit (split line));
      [|discriminate].
    destruct (float_at (split line) 4) as [x'|]; [|discriminate].
    destruct (float_at (split line) 7); [|discriminate].
    destruct (gt_zero x') eqn:Eg; [|discriminate].
    inversion Hrow; subst. exact Eg.
Qed.

(** C7, amended, on the marked report whose row holds [inf]. *)
Lemma C7_x_is_float_of_token_4_witness :
  Forall (fun x => exists line tok,
            In line report_inf_marked
            /\ 8 <= List.length (split line)
            /\ item (split line) 4 = Some tok
            /\ float_of_str tok = Some x) [pinf]
  /\ (fallback_taken report_inf_marked = true ->
      Forall (fun x => gt_zero x = true) [pinf]).
Proof.
  apply (C7_x_is_float_of_token_4 report_inf_marked [pinf] [nan]).
  vm_compute. reflexivity.
Defined.

(** C9. [parse_truncate_log] returns either [(None, None)] or two lists
    of the same length, at least 1; and the two lists have the same
    length after every iteration of either loop (each iteration appends
    to both lists or to neither). *)
Theorem C9_lists_paired (readlines : string -> option (list string))
        (log_file : string) (lines : list string) :
  match parse_truncate_log readlines log_file with
  | Some (xs, ys) => List.length xs = List.length ys /\ 1 <= List.length xs
  | None => True
  end
  /\ (forall k, paired (pass1 (firstn k lines)))
  /\ (forall k, paired (pass2 (firstn k lines) (pass1 lines))).
Proof.
  split; [|split].
  - unfold parse_truncate_log.
    destruct (readlines log_file) as [ls|]; [|exact I].
    destruct (parse_lines ls) as [[xs ys]|] eqn:Ep; [|exact I].
    apply parse_lines_some in Ep. destruct Ep as (Ex & Ey & Hne).
    split.
    + subst xs ys. apply after_pass1_paired.
    + destruct xs; [congruence | simpl; lia].
  - intros k. apply pass1_paired.
  - intros k. apply pass2_paired, pass1_paired.
Qed.

(* ================================================================== *)
(** ** Properties of the plotter *)
(* ================================================================== *)

Section PlotterFacts.

Import Plotter.
Local Open Scope R_scope.

Lemma epsilon_pos : 0 < epsilon.
Proof.
  unfold epsilon. apply Rinv_0_lt_compat. apply pow_lt. lra.
Qed.


Lemma floor_pos (x : R) : 0 < Rmax x epsilon.
Proof.
  apply Rlt_le_trans with (r2 := epsilon).
  - exact epsilon_pos.
  - apply Rmax_r.
Qed.

Lemma floor_above (x : R) : epsilon < x -> Rmax x epsilon = x.
Proof.
  intros H. apply Rmax_left. lra.
Qed.


End PlotterFacts.

Section PlotterClaims.

Import Plotter.
Local Open Scope R_scope.




End PlotterClaims.

(* ================================================================== *)
(** ** Rounding to binary64 *)
(* ================================================================== *)

Section RoundingFacts.

Import Binary64.
Local Open Scope Z_scope.

Lemma digits2_pos_log2 (p : positive) :
  Zpos (digits2_pos p) = Z.log2 (Zpos p) + 1.
Proof.
  induction p as [p IH|p IH|]; simpl.
  - rewrite Pos2Z.inj_succ. destruct p; simpl in *; try lia.
  - rewrite Pos2Z.inj_succ. destruct p; simpl in *; try lia.
  - reflexivity.
Qed.

Lemma Zdigits2_log2 (m : Z) : 0 < m -> Zdigits2 m = Z.log2 m + 1.
Proof.
  destruct m as [|p|p]; try lia. intros _. apply digits2_pos_log2.
Qed.

Lemma shr_1_m (mrs : shr_record) :
  0 <= shr_m mrs -> shr_m (shr_1 mrs) = Z.div2 (shr_m mrs).
Proof.
  destruct mrs as [m r s]. simpl. intros H.
  destruct m as [|[p|p|]|p]; try reflexivity; lia.
Qed.

Lemma shr_1_nonneg (mrs : shr_record) :
  0 <= shr_m mrs -> 0 <= shr_m (shr_1 mrs).
Proof.
  intros H. rewrite shr_1_m by exact H.
  rewrite Z.div2_div. apply Z.div_pos; lia.
Qed.

Lemma iter_pos_shr_1 (p : positive) :
  forall mrs, 0 <= shr_m mrs ->
  shr_m (SpecFloat.iter_pos shr_1 p mrs) = Z.shiftr (shr_m mrs) (Zpos p)
  /\ 0 <= shr_m (SpecFloat.iter_pos shr_1 p mrs).
Proof.
  assert (Hs : forall a q, 0 <= a -> 0 <= Z.shiftr a (Zpos q)).
  { intros a q Ha. apply Z.shiftr_nonneg. exact Ha. }
  induction p as [p IH|p IH|]; intros mrs H; simpl.
  - pose proof (shr_1_nonneg mrs H) as H1.
    destruct (IH (shr_1 mrs) H1) as [E1 N1].
    destruct (IH (SpecFloat.iter_pos shr_1 p (shr_1 mrs)) N1) as [E2 N2].
    split; [|exact N2]. rewrite E2, E1, shr_1_m by exact H.
    rewrite Z.div2_spec, !Z.shiftr_shiftr by lia. f_equal. lia.
  - destruct (IH mrs H) as [E1 N1].
    destruct (IH (SpecFloat.iter_pos shr_1 p mrs) N1) as [E2 N2].
    split; [|exact N2]. rewrite E2, E1.
    rewrite !Z.shiftr_shiftr by lia. f_equal. lia.
  - split; [|apply shr_1_nonneg; exact H].
    rewrite shr_1_m by exact H. apply Z.div2_spec.
Qed.

(** The mantissa and exponent after [shr]. *)
Lemma shr_spec (mrs : shr_record) (e n : Z) :
  0 <= shr_m mrs ->
  shr_m (fst (shr mrs e n)) = Z.shiftr (shr_m mrs) (Z.max 0 n)
  /\ snd (shr mrs e n) = e + Z.max 0 n.
Proof.
  intros H. destruct n as [|p|p]; simpl.
  - split; [symmetry; apply Z.shiftr_0_r | lia].
  - destruct (iter_pos_shr_1 p mrs H) as [E _]. split; [exact E | reflexivity].
  - split; [symmetry; apply Z.shiftr_0_r | lia].
Qed.

Lemma shr_record_of_loc_m (m : Z) (l : location) :
  shr_m (shr_record_of_loc m l) = m.
Proof.
  destruct l as [|[| |]]; reflexivity.
Qed.

Lemma shr_fexp_spec (m e : Z) (l : location) :
  0 <= m ->
  shr_m (fst (shr_fexp prec emax m e l)) = Z.shiftr m (drop m e)
  /\ snd (shr_fexp prec emax m e l) = e + drop m e.
Proof.
  intros H. unfold shr_fexp, drop.
  pose proof (shr_spec (shr_record_of_loc m l) e
                (fexp prec emax (Zdigits2 m + e) - e)) as S.
  rewrite shr_record_of_loc_m in S. apply S. exact H.
Qed.

Lemma round_nearest_even_cases (m : Z) (l : location) :
  round_nearest_even m l = m \/ round_nearest_even m l = m + 1.
Proof.
  unfold round_nearest_even.
  destruct l as [|[| |]]; auto. destruct (Z.even m); auto.
Qed.

(** [binary_round_aux] on a non-negative mantissa, in terms of shifts. *)
Lemma binary_round_aux_spec (s : bool) (m e : Z) (l : location) :
  0 <= m ->
  exists m2,
    let m1 := Z.shiftr m (drop m e) in
    let e1 := e + drop m e in
    let m3 := Z.shiftr m2 (drop m2 e1) in
    let e3 := e1 + drop m2 e1 in
    (m2 = m1 \/ m2 = m1 + 1)
    /\ binary_round_aux prec emax s m e l
       = match m3 with
         | Z0 => S754_zero s
         | Zpos p => if e3 <=? emax - prec then S754_finite s p e3
                     else S754_infinity s
         | Zneg _ => S754_nan
         end.
Proof.
  intros H. unfold binary_round_aux.
  destruct (shr_fexp_spec m e l H) as [M1 E1].
  destruct (shr_fexp prec emax m e l) as [mrs1 e1]. simpl in M1, E1.
  set (m2 := round_nearest_even (shr_m mrs1) (loc_of_shr_record mrs1)).
  assert (H1 : 0 <= shr_m mrs1) by (rewrite M1; apply Z.shiftr_nonneg; exact H).
  assert (H2 : 0 <= m2).
  { unfold m2. destruct (round_nearest_even_cases (shr_m mrs1)
                           (loc_of_shr_record mrs1)) as [E|E]; rewrite E; lia. }
  destruct (shr_fexp_spec m2 e1 loc_Exact H2) as [M3 E3].
  destruct (shr_fexp prec emax m2 e1 loc_Exact) as [mrs3 e3]. simpl in M3, E3.
  exists m2. cbv zeta. rewrite <- M1, <- E1. split.
  - apply round_nearest_even_cases.
  - rewrite M3, E3. reflexivity.
Qed.

Lemma shiftr_pos (m n : Z) :
  0 < m -> 0 <= n <= Z.log2 m ->
  0 < Z.shiftr m n /\ Z.log2 (Z.shiftr m n) = Z.log2 m - n.
Proof.
  intros Hm Hn. split.
  - assert (H0 : 0 <= Z.shiftr m n) by (apply Z.shiftr_nonneg; lia).
    assert (H1 : Z.shiftr m n <> 0).
    { intros E. apply Z.shiftr_eq_0_iff in E. lia. }
    lia.
  - rewrite Z.log2_shiftr by exact Hm. lia.
Qed.

Lemma drop_spec (m e : Z) :
  0 < m ->
  drop m e = Z.max 0 (Z.max (Z.log2 m - 52 + e) (-1074) - e).
Proof.
  intros H. unfold drop, fexp, emin, prec, emax.
  rewrite Zdigits2_log2 by exact H. f_equal. f_equal. lia.
Qed.

(** One rounding shift keeps a mantissa positive when the value is not
    below the smallest subnormal. *)
Lemma drop_shift (m e : Z) :
  0 < m -> -1075 < Z.log2 m + e ->
  let m1 := Z.shiftr m (drop m e) in
  0 <= drop m e
  /\ 0 < m1
  /\ Z.log2 m1 = Z.log2 m - drop m e
  /\ Z.log2 m1 <= 52
  /\ -1074 <= e + drop m e.
Proof.
  intros Hm He. cbv zeta.
  pose proof (Z.log2_nonneg m) as Hl.
  rewrite (drop_spec m e Hm).
  set (d := Z.max 0 (Z.max (Z.log2 m - 52 + e) (-1074) - e)).
  assert (Hd : 0 <= d <= Z.log2 m) by (unfold d; lia).
  destruct (shiftr_pos m d Hm Hd) as [P L].
  repeat split; try assumption; try lia.
Qed.

Lemma log2_succ_le (m : Z) : 0 < m -> Z.log2 m <= Z.log2 (m + 1) <= Z.log2 m + 1.
Proof.
  intros H. split.
  - apply Z.log2_le_mono. lia.
  - pose proof (Z.log2_succ_le m) as S. unfold Z.succ in S. lia.
Qed.

Lemma binary_round_aux_pos (s : bool) (m e : Z) (l : location) :
  0 < m -> -1075 < Z.log2 m + e ->
  binary_round_aux prec emax s m e l = S754_infinity s
  \/ exists p e3,
       binary_round_aux prec emax s m e l = S754_finite s p e3
       /\ Z.log2 (Zpos p) <= 52 /\ -1074 <= e3 <= 971 /\ e <= e3
       /\ Z.log2 m + e <= Z.log2 (Zpos p) + e3 <= Z.log2 m + e + 1.
Proof.
  intros Hm He.
  destruct (binary_round_aux_spec s m e l) as (m2 & Hspec); [lia|].
  cbv zeta in Hspec. destruct Hspec as (H2 & Hr).
  destruct (drop_shift m e Hm He) as (D1 & P1 & L1 & B1 & X1).
  cbv zeta in P1, L1, B1.
  set (m1 := Z.shiftr m (drop m e)) in *.
  set (e1 := e + drop m e) in *.
  assert (P2 : 0 < m2) by (destruct H2; lia).
  assert (L2 : Z.log2 m1 <= Z.log2 m2 <= Z.log2 m1 + 1).
  { destruct H2 as [E|E]; rewrite E; [lia | apply log2_succ_le; exact P1]. }
  assert (He2 : -1075 < Z.log2 m2 + e1) by (unfold e1; lia).
  destruct (drop_shift m2 e1 P2 He2) as (D3 & P3 & L3 & B3 & X3).
  cbv zeta in P3, L3, B3.
  set (m3 := Z.shiftr m2 (drop m2 e1)) in *.
  set (e3 := e1 + drop m2 e1) in *.
  rewrite Hr. destruct m3 as [|p|p] eqn:E3; try lia.
  destruct (e3 <=? emax - prec) eqn:Ee; [|left; reflexivity].
  right. exists p, e3. apply Z.leb_le in Ee. unfold emax, prec in Ee.
  repeat split; try lia; unfold e3, e1; lia.
Qed.


End RoundingFacts.

Section Transform64Facts.

Import Binary64 Plotter64.
Local Open Scope Z_scope.

Lemma positive64_gt_zero (x : float) : positive64 x -> gt_zero x = true.
Proof.
  intros [E | (p & e & E & _)]; subst x; reflexivity.
Qed.

Lemma round_positive (m e : Z) (l : location) :
  0 < m -> -1075 < Z.log2 m + e ->
  positive64 (binary_round_aux prec emax false m e l).
Proof.
  intros Hm He.
  destruct (binary_round_aux_pos false m e l Hm He)
    as [E | (p & e3 & E & L & B & _)].
  - left. exact E.
  - right. exists p, e3. auto.
Qed.

(** [1.0 / d] for a positive finite [d] is positive. *)
Lemma div_one_positive (d : float) :
  pos_finite d -> positive64 (divide one d).
Proof.
  intros (p & e & E & L & B). subst d.
  unfold divide, one, SFdiv, SFdiv_core_binary.
  rewrite !Zdigits2_log2 by lia.
  change (Z.log2 4503599627370496) with 52.
  set (e' := Z.min (fexp prec emax (52 + 1 + -52 - (Z.log2 (Z.pos p) + 1 + e)))
                   (-52 - e)).
  pose proof (Z.log2_nonneg (Zpos p)) as Lp.
  assert (He' : -1074 <= e' <= -53 - e).
  { unfold e', fexp, emin, prec, emax. lia. }
  set (s := -52 - e - e').
  assert (Hs : 1 <= s) by (unfold s; lia).
  destruct s as [|sp|sp] eqn:Es; try lia.
  rewrite Z.shiftl_mul_pow2 by lia.
  assert (Hp : Zpos p < 2 ^ 53).
  { apply Z.log2_lt_pow2; lia. }
  assert (Hpow : 2 <= 2 ^ Zpos sp).
  { change 2 with (2 ^ 1) at 1. apply Z.pow_le_mono_r; lia. }
  set (m' := 4503599627370496 * 2 ^ Z.pos sp).
  assert (Hm' : Zpos p <= m').
  { unfold m'. change (2 ^ 53) with (4503599627370496 * 2) in Hp. nia. }
  pose proof (Z.div_le_lower_bound m' (Zpos p) 1) as Hq.
  assert (Hq1 : 1 <= m' / Zpos p) by (apply Hq; lia).
  unfold Z.div in Hq1.
  destruct (Z.div_eucl m' (Zpos p)) as [q r].
  apply round_positive; [lia|].
  pose proof (Z.log2_nonneg q). lia.
Qed.

(** The square root of a positive value is positive. *)
Lemma sqrt_positive (x : float) :
  positive64 x -> positive64 (sqrt x).
Proof.
  intros [E | (p & e & E & L & B)]; subst x; [left; reflexivity|].
  unfold sqrt, SFsqrt, SFsqrt_core_binary.
  rewrite !Zdigits2_log2 by lia.
  set (e' := Z.min (fexp prec emax (Z.div2 (Z.log2 (Z.pos p) + 1 + e + 1)))
                   (Z.div2 e)).
  assert (Hd : 2 * Z.div2 e <= e).
  { rewrite Z.div2_div. pose proof (Z.mul_div_le e 2). lia. }
  assert (Hd2 : -537 <= Z.div2 e).
  { rewrite Z.div2_div. apply Z.div_le_lower_bound; lia. }
  assert (He' : -1074 <= e' /\ 2 * e' <= e).
  { unfold e', fexp, emin, prec, emax. lia. }
  set (s := e - 2 * e').
  assert (Hs : 0 <= s) by (unfold s; lia).
  assert (Hm : exists m', 0 < m' /\
            match s with
            | Z.pos _ => Z.shiftl (Z.pos p) s
            | 0 => Z.pos p
            | Z.neg _ => 0
            end = m').
  { destruct s as [|sp|sp]; try lia.
    - exists (Zpos p). split; [lia | reflexivity].
    - exists (Z.shiftl (Z.pos p) (Z.pos sp)). split; [|reflexivity].
      rewrite Z.shiftl_mul_pow2 by lia.
      apply Z.mul_pos_pos; [lia|]. apply Z.pow_pos_nonneg; lia. }
  destruct Hm as (m' & Hm' & Em). rewrite Em.
  pose proof (Z.sqrtrem_sqrt m') as Hq.
  destruct (Z.sqrtrem m') as [q r]. simpl in Hq. subst q.
  assert (Hq : 0 < Z.sqrt m') by (apply Z.sqrt_pos; exact Hm').
  apply round_positive; [exact Hq|].
  pose proof (Z.log2_nonneg (Z.sqrt m')). lia.
Qed.

Lemma above_floor_pos_finite (x : float) : above_floor x -> pos_finite x.
Proof.
  intros (p & e & E & L & B). exists p, e. repeat split; try assumption; lia.
Qed.

Lemma square_bounds (p : positive) :
  Z.log2 (Zpos p) = 52 ->
  2 ^ 104 <= Zpos p * Zpos p <= (2 ^ 53 - 1) * (2 ^ 53 - 1)
  /\ 104 <= Z.log2 (Zpos p * Zpos p) <= 105.
Proof.
  intros L.
  assert (Hlo : 2 ^ 52 <= Zpos p) by (apply Z.log2_le_pow2; lia).
  assert (Hhi : Zpos p < 2 ^ 53) by (apply Z.log2_lt_pow2; lia).
  assert (B : 2 ^ 104 <= Zpos p * Zpos p <= (2 ^ 53 - 1) * (2 ^ 53 - 1)).
  { change (2 ^ 104) with (2 ^ 52 * 2 ^ 52). split.
    - apply Z.mul_le_mono_nonneg; lia.
    - apply Z.mul_le_mono_nonneg; lia. }
  split; [exact B|]. split.
  - apply Z.log2_le_pow2; lia.
  - assert (Z.log2 (Zpos p * Zpos p) < 106); [|lia].
    apply Z.log2_lt_pow2; [lia|].
    change (2 ^ 106) with (2 ^ 53 * 2 ^ 53). nia.
Qed.

Lemma square_positive (m : float) :
  above_floor m -> positive64 (square m).
Proof.
  intros (p & e & E & L & B). subst m. unfold square, SFmul. simpl xorb.
  destruct (square_bounds p L) as (Bm & Bl).
  apply round_positive.
  - change (Z.pos (p * p)) with (Zpos p * Zpos p). lia.
  - change (Z.pos (p * p)) with (Zpos p * Zpos p). lia.
Qed.

(** From [2^512] on the square overflows. *)
Lemma square_overflow (p : positive) (e : Z) :
  Z.log2 (Zpos p) = 52 -> 460 <= e ->
  square (S754_finite false p e)
  = S754_infinity false.
Proof.
  intros L B. unfold square, SFmul. simpl xorb.
  destruct (square_bounds p L) as (Bm & Bl).
  change (Z.pos (p * p)) with (Zpos p * Zpos p).
  destruct (binary_round_aux_pos false (Zpos p * Zpos p) (e + e) loc_Exact)
    as [E | (q & e3 & E & Lq & Be & _ & Bv)]; try lia.
  exact E.
Qed.

(** Below [2^512] it does not. *)
Lemma square_finite (p : positive) (e : Z) :
  Z.log2 (Zpos p) = 52 -> -86 <= e <= 459 ->
  pos_finite (square (S754_finite false p e)).
Proof.
  intros L B. unfold square, SFmul. simpl xorb.
  destruct (square_bounds p L) as (Bm & Bl).
  change (Z.pos (p * p)) with (Zpos p * Zpos p).
  set (M := Zpos p * Zpos p) in *. set (E := e + e).
  assert (HM : 0 < M) by lia.
  destruct (binary_round_aux_spec false M E loc_Exact) as (m2 & Hspec); [lia|].
  cbv zeta in Hspec. destruct Hspec as (H2 & Hr).
  assert (D1 : drop M E = Z.log2 M - 52).
  { rewrite (drop_spec M E HM). unfold E. lia. }
  destruct (drop_shift M E HM) as (_ & P1 & L1 & _ & _); [unfold E; lia|].
  cbv zeta in P1, L1. rewrite D1 in *.
  set (m1 := Z.shiftr M (Z.log2 M - 52)) in *.
  assert (Lm1 : Z.log2 m1 = 52) by lia.
  assert (Hm1 : m1 <= 2 ^ 53 - 1).
  { assert (m1 < 2 ^ 53); [|lia]. apply Z.log2_lt_pow2; lia. }
  (* with 106 bits the shifted mantissa leaves room for the carry *)
  assert (Hcarry : Z.log2 M = 105 -> m1 <= 2 ^ 53 - 2).
  { intros E105. unfold m1. rewrite E105.
    rewrite Z.shiftr_div_pow2 by lia.
    change (105 - 52) with 53.
    assert (M / 2 ^ 53 < 2 ^ 53 - 1); [|lia].
    apply Z.div_lt_upper_bound; [lia|].
    change ((2 ^ 53 - 1) * (2 ^ 53 - 1)) with
      (2 ^ 53 * (2 ^ 53 - 1) - (2 ^ 53 - 1)) in Bm. lia. }
  assert (P2 : 0 < m2) by (destruct H2; lia).
  assert (L2 : 52 <= Z.log2 m2 <= 53).
  { destruct H2 as [E2|E2]; rewrite E2; [lia|].
    pose proof (log2_succ_le m1 P1). lia. }
  assert (L2' : Z.log2 M = 105 -> Z.log2 m2 = 52).
  { intros E105. specialize (Hcarry E105).
    assert (Z.log2 m2 < 53); [|lia].
    apply Z.log2_lt_pow2; [lia|]. destruct H2; lia. }
  set (e1 := E + (Z.log2 M - 52)) in *.
  assert (D2 : drop m2 e1 = Z.log2 m2 - 52).
  { rewrite (drop_spec m2 e1 P2). unfold e1, E. lia. }
  destruct (drop_shift m2 e1 P2) as (_ & P3 & L3 & _ & _);
    [unfold e1, E; lia|].
  cbv zeta in P3, L3. rewrite D2 in *.
  set (m3 := Z.shiftr m2 (Z.log2 m2 - 52)) in *.
  assert (He3 : e1 + (Z.log2 m2 - 52) <= 971).
  { unfold e1, E.
    destruct (Z.eq_dec (Z.log2 M) 105) as [E105|N105].
    - rewrite (L2' E105). lia.
    - lia. }
  rewrite Hr. destruct m3 as [|q|q] eqn:E3; try lia.
  assert (Hle : (e1 + (Z.log2 m2 - 52) <=? emax - prec) = true).
  { apply Z.leb_le. unfold emax, prec. lia. }
  rewrite Hle.
  exists q, (e1 + (Z.log2 m2 - 52)).
  repeat split; lia.
Qed.

Lemma valid_finite (s : bool) (p : positive) (e : Z) :
  binary64 (S754_finite s p e) ->
  Z.log2 (Zpos p) <= 52 /\ -1074 <= e <= 971
  /\ (-1074 < e -> Z.log2 (Zpos p) = 52).
Proof.
  unfold binary64, valid_binary, bounded, canonical_mantissa. intros H.
  apply andb_prop in H. destruct H as [Hc He].
  apply Z.eqb_eq in Hc. apply Z.leb_le in He.
  rewrite digits2_pos_log2 in Hc.
  unfold fexp, emin, prec, emax in *.
  pose proof (Z.log2_nonneg (Zpos p)). lia.
Qed.

(** The floored argument: the input when it is at least the floor,
    the floor otherwise. *)
Lemma maximum_floor (x : float) :
  binary64 x -> isnan x = false ->
  (x = S754_infinity false /\ maximum x epsilon = S754_infinity false)
  \/ (above_floor (maximum x epsilon)
      /\ (maximum x epsilon = epsilon \/ maximum x epsilon = x)).
Proof.
  intros Hv Hn.
  assert (Heps : above_floor epsilon).
  { exists 7737125245533627%positive, (-86). repeat split; lia. }
  destruct x as [s|s| |s p e]; try discriminate.
  - right. split; [exact Heps | left; reflexivity].
  - destruct s.
    + right. split; [exact Heps | left; reflexivity].
    + left. split; reflexivity.
  - destruct s; [right; split; [exact Heps | left; reflexivity]|].
    right. unfold maximum, SFleb, epsilon. cbn [SFcompare isnan].
    rewrite orb_false_r.
    destruct (valid_finite false p e Hv) as (L & B & N).
    destruct (-86 ?= e) eqn:C.
    + apply Z.compare_eq in C. subst e.
      destruct (Pos.compare_cont Eq 7737125245533627 p);
        (split; [|auto]);
        try (exists p, (-86); repeat split; lia);
        exists 7737125245533627%positive, (-86); repeat split; lia.
    + rewrite Z.compare_lt_iff in C.
      split; [|right; reflexivity].
      exists p, e. repeat split; lia.
    + split; [|left; reflexivity].
      exists 7737125245533627%positive, (-86). repeat split; lia.
Qed.

Lemma below_two512 (p : positive) (e : Z) :
  binary64 (S754_finite false p e) ->
  SFltb (S754_finite false p e) two512 = true -> e <= 459.
Proof.
  intros Hv. unfold SFltb, two512. cbn [SFcompare].
  destruct (valid_finite false p e Hv) as (L & B & N).
  destruct (e ?= 460) eqn:C.
  - apply Z.compare_eq in C. subst e.
    assert (L52 : Z.log2 (Zpos p) = 52) by (apply N; lia).
    assert (Hlo : 2 ^ 52 <= Zpos p) by (apply Z.log2_le_pow2; lia).
    destruct (Pos.compare_cont Eq p 4503599627370496) eqn:Cp; try discriminate.
    assert (Hlt : (p < 4503599627370496)%positive)
      by (unfold Pos.lt, Pos.compare; exact Cp).
    apply Pos2Z.pos_lt_pos in Hlt. clear Cp.
    intros _. lia.
  - rewrite Z.compare_lt_iff in C. lia.
  - discriminate.
Qed.

Lemma from_two512 (p : positive) (e : Z) :
  SFleb two512 (S754_finite false p e) = true -> 460 <= e.
Proof.
  unfold SFleb, two512. cbn [SFcompare].
  destruct (460 ?= e) eqn:C.
  - apply Z.compare_eq in C. lia.
  - rewrite Z.compare_lt_iff in C. lia.
  - discriminate.
Qed.

(** C10, as stated, fails: [2^512] is a finite positive input, its
    square overflows to [+inf], and [resolution_to_inv_d_sq] returns
    [0.0], which is not strictly positive. *)
Lemma C10_square_overflows :
  float_of_str "1.3407807929942597e154" = Some two512
  /\ binary64 two512
  /\ is_finite two512 = true
  /\ square (maximum two512 epsilon) = S754_infinity false
  /\ resolution_to_inv_d_sq two512 = S754_zero false
  /\ gt_zero (resolution_to_inv_d_sq two512) = false.
Proof.
  repeat split; vm_compute; reflexivity.
Qed.

(** C10, amended. For every binary64 input other than NaN, zero and
    negative values included, the floor [1e-10] makes the divisor of each
    transform strictly positive (a positive finite value or [+inf]), so
    neither transform divides by zero. [inv_d_sq_to_resolution] returns a
    strictly positive value for every finite input.
    [resolution_to_inv_d_sq] returns a strictly positive value for every
    input below [2^512]; from [2^512] on the square overflows and it
    returns [0.0]. *)
Theorem C10_transforms_binary64 (x : float) :
  binary64 x -> isnan x = false ->
  positive64 (maximum x epsilon)
  /\ positive64 (square (maximum x epsilon))
  /\ (is_finite x = true -> gt_zero (inv_d_sq_to_resolution x) = true)
  /\ (SFltb x two512 = true -> gt_zero (resolution_to_inv_d_sq x) = true)
  /\ (SFleb two512 x = true -> resolution_to_inv_d_sq x = S754_zero false).
Proof.
  intros Hv Hn.
  destruct (maximum_floor x Hv Hn) as [(Ex & Em) | (Ha & Hc)].
  - subst x. rewrite Em. split; [left; reflexivity|].
    split; [left; reflexivity|].
    split; [discriminate|]. split; [discriminate|]. reflexivity.
  - split; [right; apply above_floor_pos_finite; exact Ha|].
    split; [apply square_positive; exact Ha|].
    split; [|split].
    + intros _. unfold inv_d_sq_to_resolution.
      apply positive64_gt_zero, sqrt_positive, div_one_positive,
        above_floor_pos_finite. exact Ha.
    + intros Hlt. unfold resolution_to_inv_d_sq.
      apply positive64_gt_zero, div_one_positive.
      destruct Ha as (p & e & E & L & B). rewrite E.
      apply square_finite; [exact L|]. split; [lia|].
      destruct Hc as [Hc|Hc].
      * rewrite Hc in E. unfold epsilon in E. inversion E. lia.
      * rewrite Hc in E. subst x. apply (below_two512 p e Hv Hlt).
    + intros Hge. unfold resolution_to_inv_d_sq.
      destruct Ha as (p & e & E & L & B).
      destruct Hc as [Hc|Hc].
      * (* the input is below the floor: impossible from 2^512 on *)
        exfalso. rewrite Hc in E. unfold epsilon in E. inversion E; subst p e.
        clear E. unfold maximum in Hc.
        destruct (SFleb epsilon x || isnan x) eqn:Eb.
        -- subst x. discriminate Hge.
        -- rewrite Hn, orb_false_r in Eb.
           destruct x as [s|s| |s q f]; try discriminate.
           ++ destruct s; discriminate.
           ++ destruct s; [discriminate|].
              pose proof (from_two512 q f Hge) as Hf.
              unfold SFleb, epsilon in Eb. cbn [SFcompare] in Eb.
              destruct (-86 ?= f) eqn:C; try discriminate.
              ** apply Z.compare_eq in C. lia.
              ** rewrite Z.compare_gt_iff in C. lia.
      * rewrite Hc in E. subst x. rewrite Hc.
        rewrite (square_overflow p e L (from_two512 p e Hge)). reflexivity.
Qed.

(** C10, amended, at [x = -1.0]. *)
Lemma C10_transforms_binary64_witness :
  gt_zero (inv_d_sq_to_resolution (literal "-1.0")) = true
  /\ gt_zero (resolution_to_inv_d_sq (literal "-1.0")) = true.
Proof.
  destruct (C10_transforms_binary64 (literal "-1.0"))
    as (_ & _ & Hi & Hr & _).
  - vm_compute. reflexivity.
  - vm_compute. reflexivity.
  - split; [apply Hi | apply Hr]; vm_compute; reflexivity.
Defined.

End Transform64Facts.

(* ================================================================== *)
(** ** Properties of the program *)
(* ================================================================== *)

Section MainFacts.

Import Main.

Variable readlines : string -> option (list string).
Variable render : list float -> list float -> string -> bool.

(** A returned pair of lists passes the test of the [__main__] block. *)
Lemma extracted_some (log_file : string) (xs ys : list float) :
  parse_truncate_log readlines log_file = Some (xs, ys) ->
  extracted (Some (xs, ys)) = true.
Proof.
  unfold parse_truncate_log.
  destruct (readlines log_file) as [lines|]; [|discriminate].
  intros Hp. apply parse_lines_some in Hp. destruct Hp as (Ex & Ey & Hne).
  pose proof (after_pass1_paired lines) as Hpair. unfold paired in Hpair.
  rewrite <- Ex, <- Ey in Hpair.
  destruct xs; [congruence|]. destruct ys; [discriminate|]. reflexivity.
Qed.

Lemma main_cases (argv : list string) :
  main readlines render argv
  = if List.length argv <? 3 then 1%Z
    else match parse_truncate_log readlines (nth 1 argv "") with
         | Some (xs, ys) =>
             if create_wilson_plot render xs ys (nth 2 argv "")
             then 0%Z else 1%Z
         | None => 1%Z
         end.
Proof.
  unfold main.
  destruct (List.length argv <? 3); [reflexivity|].
  destruct (parse_truncate_log readlines (nth 1 argv "")) as [[xs ys]|] eqn:E.
  - rewrite (extracted_some _ _ _ E). reflexivity.
  - reflexivity.
Qed.

(** C8. For every invocation: the exit code is 0 exactly when three or
    more arguments are given, extraction returns a data set and
    [create_wilson_plot] succeeds; it is 1 exactly when fewer than
    three arguments are given, or extraction returns no data, or
    [create_wilson_plot] fails, which it does for fewer than 2
    points; and there is no other exit code. *)
Theorem C8_exit_codes (argv : list string) :
  let r := parse_truncate_log readlines (nth 1 argv "") in
  let output_file := nth 2 argv "" in
  (main readlines render argv = 0%Z
   <-> 3 <= List.length argv
       /\ exists xs ys,
            r = Some (xs, ys)
            /\ create_wilson_plot render xs ys output_file = true)
  /\ (main readlines render argv = 1%Z
      <-> List.length argv < 3
          \/ (3 <= List.length argv /\ r = None)
          \/ (3 <= List.length argv
              /\ exists xs ys,
                   r = Some (xs, ys)
                   /\ create_wilson_plot render xs ys output_file = false))
  /\ (main readlines render argv = 0%Z \/ main readlines render argv = 1%Z)
  /\ (forall xs ys out,
        List.length xs < 2 -> create_wilson_plot render xs ys out = false).
Proof.
  cbv zeta. rewrite main_cases.
  destruct (List.length argv <? 3) eqn:Ea.
  - apply Nat.ltb_lt in Ea.
    repeat split; try (intros; discriminate); auto.
    + intros (H & _). lia.
    + intros xs ys out Hlt. unfold create_wilson_plot.
      apply Nat.ltb_lt in Hlt. rewrite Hlt, orb_true_r. reflexivity.
  - apply Nat.ltb_ge in Ea.
    destruct (parse_truncate_log readlines (nth 1 argv "")) as [[xs ys]|].
    + destruct (create_wilson_plot render xs ys (nth 2 argv "")) eqn:Ec.
      * repeat split; try (intros; discriminate); auto.
        -- exists xs, ys. auto.
        -- intros [H | [(_ & H) | (_ & xs' & ys' & H & Hc)]];
             [lia | discriminate | ].
           inversion H; subst. congruence.
        -- intros xs' ys' out Hlt. unfold create_wilson_plot.
           apply Nat.ltb_lt in Hlt. rewrite Hlt, orb_true_r. reflexivity.
      * repeat split; try (intros; discriminate); auto.
        -- intros (_ & xs' & ys' & H & Hc). inversion H; subst. congruence.
        -- intros _. right. right. split; [exact Ea|].
           exists xs, ys. auto.
        -- intros xs' ys' out Hlt. unfold create_wilson_plot.
           apply Nat.ltb_lt in Hlt. rewrite Hlt, orb_true_r. reflexivity.
    + repeat split; try (intros; discriminate); auto.
      * intros (_ & xs' & ys' & H & _). discriminate.
      * intros xs' ys' out Hlt. unfold create_wilson_plot.
        apply Nat.ltb_lt in Hlt. rewrite Hlt, orb_true_r. reflexivity.
Qed.

End MainFacts.

(** C3 on the report of five rows and on the report with an empty line. *)
Lemma C3_fallback_and_result_witness :
  fallback_taken report_plain = true
  /\ parse_lines report_ragged <> None.
Proof.
  destruct (C3_fallback_and_result report_plain) as ((_ & Hback) & _).
  destruct (C3_fallback_and_result report_ragged) as (_ & _ & (Hnone & _) & _).
  split.
  - apply Hback. vm_compute. reflexivity.
  - intros H. apply Hnone in H. destruct H as (_ & H).
    vm_compute in H. discriminate H.
Defined.

(** C8 on a run with three arguments, a readable report of five rows
    and a drawing that succeeds. *)
Lemma C8_exit_codes_witness :
  Main.main (fun _ => Some report_plain) (fun _ _ _ => true)
            ["wilsonplot3.py"; "truncate.log"; "wilson.png"] = 0%Z
  /\ Main.create_wilson_plot (fun _ _ _ => true) [S754_zero false] [S754_zero false]
                             "wilson.png" = false.
Proof.
  destruct (C8_exit_codes (fun _ => Some report_plain) (fun _ _ _ => true)
              ["wilsonplot3.py"; "truncate.log"; "wilson.png"])
    as ((_ & Hzero) & _ & _ & Hfew).
  split.
  - apply Hzero. split; [simpl; lia|].
    eexists; eexists. split; vm_compute; reflexivity.
  - apply Hfew. simpl. lia.
Defined.

(* ================================================================== *)
(** ** Further properties of the extractor *)
(* ================================================================== *)

Import ScanSpec.

Section ScanFacts.

(** An invariant kept on the lines that satisfy [R]. *)
Lemma for_lines_invariant_on (R : string -> Prop) (P : scan -> Prop)
      (body : Z -> string -> scan -> scan * ctl) :
  (forall i line st, R line -> P st -> P (fst (body i line st))) ->
  forall lines, Forall R lines ->
  forall i st, P st -> P (for_lines body i lines st).
Proof.
  intros Hbody lines HR.
  induction HR as [|line rest Hl _ IH]; intros i st Hst; simpl.
  - exact Hst.
  - specialize (Hbody i line st Hl Hst).
    destruct (body i line st) as [st' [|]]; simpl in Hbody.
    + apply IH. exact Hbody.
    + exact Hbody.
Qed.

Lemma effect_change (f g : string -> option (float * float))
      (line : string) (st st' : scan) :
  (forall p, f line = Some p -> g line = Some p) ->
  effect f line st st' -> effect g line st st'.
Proof.
  intros Hfg [Ex Ey | x y Hf Ex Ey].
  - apply effect_none; assumption.
  - apply effect_point with (x := x) (y := y); auto.
Qed.

Lemma row1_not_ragged (line : string) (p : float * float) :
  row1 line = Some p -> ragged line = false.
Proof.
  unfold row1, ragged. intros H.
  destruct (8 <=? List.length (split line)) eqn:E8; [|discriminate].
  apply Nat.ltb_ge. apply Nat.leb_le in E8. exact E8.
Qed.

Lemma ragged_row1 (line : string) : ragged line = true -> row1 line = None.
Proof.
  intros H. destruct (row1 line) as [p|] eqn:E; [|reflexivity].
  apply row1_not_ragged in E. congruence.
Qed.

Lemma in_order_bound (lines : list string) (xs ys : list float) :
  in_order row1 lines xs ys ->
  List.length xs
  <= List.length (filter (fun l => negb (ragged l)) lines).
Proof.
  induction 1 as [lines | l lines xs ys H IH | l lines x y xs ys Hf H IH].
  - simpl. lia.
  - simpl. destruct (negb (ragged l)); simpl; lia.
  - simpl. rewrite (row1_not_ragged l _ Hf). simpl. lia.
Qed.

Lemma filter_length_le {A : Type} (f : A -> bool) (l : list A) :
  List.length (filter f l) <= List.length l.
Proof.
  induction l as [|a l IH]; simpl; [lia|].
  destruct (f a); simpl; lia.
Qed.

(** A marker line only moves the recorded header index. *)
Lemma pass1_body_marker (i : Z) (line : string) (st : scan) :
  has_marker line = true ->
  pass1_body i line st = (set_header i st, Next).
Proof.
  intros Hm. unfold pass1_body, mark, after_header. rewrite Hm.
  cbn [data_header_line set_header].
  rewrite Z.ltb_irrefl, andb_false_r. reflexivity.
Qed.

Lemma pass1_body_candidate (i : Z) (line : string) (st : scan) :
  effect candidate1 line st (fst (pass1_body i line st)).
Proof.
  destruct (has_marker line) eqn:Hm.
  - rewrite (pass1_body_marker i line st Hm).
    apply effect_none; reflexivity.
  - unfold pass1_body, mark. rewrite Hm.
    destruct (after_header i st); [|apply effect_none; reflexivity].
    destruct (contains "$" line && negb (in_data_section st));
      [apply effect_none; reflexivity|].
    destruct (data_line1 line st) as [st'|] eqn:E;
      [|apply effect_none; reflexivity].
    rewrite section_end1_same.
    unfold data_line1 in E.
    destruct (in_data_section st); cbn [andb] in E;
      [|inversion E; subst; apply effect_none; reflexivity].
    destruct (starts_with_number line) eqn:Es;
      [|inversion E; subst; apply effect_none; reflexivity].
    destruct (8 <=? List.length (split line)) eqn:E8;
      [|inversion E; subst; apply effect_none; reflexivity].
    apply Nat.leb_le in E8.
    apply effect_change with (f := row1).
    + intros p Hp. unfold candidate1. rewrite Hm, Es. exact Hp.
    + apply try_row1_effect; assumption.
Qed.

(** Pass 1 leaves through [break] only with a point in the list. *)
Lemma pass1_body_break (i : Z) (line : string) (st st' : scan) :
  pass1_body i line st = (st', Break) -> resolution_inv_sq st' <> [].
Proof.
  unfold pass1_body. intros H.
  destruct (after_header i (mark i line st)); [|discriminate].
  destruct (contains "$" line && negb (in_data_section (mark i line st)));
    [discriminate|].
  destruct (data_line1 line (mark i line st)) as [st1|]; [|discriminate].
  unfold section_end1 in H.
  destruct (in_data_section st1
            && (contains "$" line || String.eqb (strip line) ""));
    [|discriminate].
  destruct (0 <? List.length (resolution_inv_sq st1)) eqn:E; [|discriminate].
  inversion H; subst. apply Nat.ltb_lt in E.
  intros Hnil. rewrite Hnil in E. simpl in E. lia.
Qed.

Lemma broke_nonempty (lines : list string) :
  forall i st,
  broke pass1_body i lines st = true ->
  resolution_inv_sq (for_lines pass1_body i lines st) <> [].
Proof.
  induction lines as [|line rest IH]; intros i st H; simpl in *.
  - discriminate.
  - destruct (pass1_body i line st) as [st' [|]] eqn:E.
    + apply IH. exact H.
    + apply (pass1_body_break i line st st' E).
Qed.

(** A loop that leaves through [break] does not read what follows. *)
Lemma for_lines_app_broke (body : Z -> string -> scan -> scan * ctl)
      (pre suf : list string) :
  forall i st,
  broke body i pre st = true ->
  for_lines body i (pre ++ suf) st = for_lines body i pre st.
Proof.
  induction pre as [|line rest IH]; intros i st H; simpl in *.
  - discriminate.
  - destruct (body i line st) as [st' [|]].
    + apply IH. exact H.
    + reflexivity.
Qed.

(** Without a [$] pass 1 never enters the data section. *)
Lemma pass1_body_no_dollar (i : Z) (line : string) (st : scan) :
  contains "$" line = false ->
  in_data_section st = false /\ resolution_inv_sq st = [] ->
  in_data_section (fst (pass1_body i line st)) = false
  /\ resolution_inv_sq (fst (pass1_body i line st)) = [].
Proof.
  intros Hd (Hs & Hx).
  destruct (mark_lists i line st) as (Mx & _ & Ms).
  unfold pass1_body.
  destruct (after_header i (mark i line st)); simpl;
    [|rewrite Ms, Mx; auto].
  rewrite Hd. simpl.
  unfold data_line1. rewrite Ms, Hs. simpl.
  unfold section_end1. rewrite Ms, Hs. simpl.
  rewrite Ms, Mx. auto.
Qed.

End ScanFacts.

Section StringFacts.

(** Blanks in front of a line do not change its tokens. *)
Lemma split_lstrip (s : string) : split s = split (lstrip s).
Proof.
  unfold split.
  induction s as [|c r IH]; [reflexivity|].
  simpl. destruct (isspace c) eqn:E.
  - simpl. exact IH.
  - simpl. rewrite E. reflexivity.
Qed.

Lemma lstrip_head (s : string) (c : ascii) (r : string) :
  lstrip s = String c r -> isspace c = false.
Proof.
  induction s as [|d t IH]; simpl; [discriminate|].
  destruct (isspace d) eqn:E.
  - exact IH.
  - intros H. inversion H; subst. exact E.
Qed.

(** The token being read is the first token of the result, and it
    starts with the characters already read. *)
Lemma split_from_head (s : string) :
  forall cur, cur <> [] ->
  exists more rest,
    split_from cur s = string_of_list_ascii (rev (more ++ cur)) :: rest.
Proof.
  induction s as [|c r IH]; intros cur Hne.
  - exists [], []. simpl. destruct cur; [congruence | reflexivity].
  - simpl. destruct (isspace c).
    + exists [], (split_from [] r). simpl.
      destruct cur; [congruence | reflexivity].
    + destruct (IH (c :: cur)) as (more & rest & H); [discriminate|].
      exists (more ++ [c]), rest. rewrite H, <- app_assoc. reflexivity.
Qed.

Lemma rstrip_keeps_head (c : ascii) (r : string) :
  isspace c = false -> truthy (rstrip (String c r)) = true.
Proof.
  intros H. simpl. destruct (rstrip r); [rewrite H|]; reflexivity.
Qed.

Lemma first_isdigit_starts (line : string) :
  first_isdigit (split line) = true -> starts_with_number line = true.
Proof.
  unfold first_isdigit, item, starts_with_number, strip.
  rewrite split_lstrip.
  destruct (lstrip line) as [|c r] eqn:El; [simpl; discriminate|].
  pose proof (lstrip_head line c r El) as Hc.
  rewrite (rstrip_keeps_head c r Hc).
  unfold split. simpl. rewrite Hc.
  destruct (split_from_head r [c]) as (more & rest & H); [discriminate|].
  rewrite H. simpl. rewrite rev_app_distr. simpl.
  intros Hd. apply andb_prop in Hd. destruct Hd as [Hd _]. exact Hd.
Qed.

Lemma strip_truthy_lstrip (line : string) :
  truthy (strip line) = true -> lstrip line <> "".
Proof.
  unfold strip. intros H E. rewrite E in H. discriminate H.
Qed.

End StringFacts.

(** *** Extractor: further theorems *)

(** X1. When the file cannot be read, or every line of it (if any) has
    fewer than 8 tokens, [parse_truncate_log] returns [(None, None)]. *)
Theorem X1_short_lines_no_data (readlines : string -> option (list string))
        (log_file : string) :
  match readlines log_file with
  | Some lines => Forall (fun l => ragged l = true) lines
  | None => True
  end ->
  parse_truncate_log readlines log_file = None.
Proof.
  unfold parse_truncate_log.
  destruct (readlines log_file) as [lines|]; [|reflexivity].
  intros Hr. apply parse_lines_none.
  pose proof (after_pass1_in_order lines) as Hio.
  pose proof (in_order_bound _ _ _ Hio) as Hb.
  assert (Hz : filter (fun l => negb (ragged l)) lines = []).
  { clear Hio Hb. induction Hr as [|l r Hl _ IH]; simpl; [reflexivity|].
    rewrite Hl. simpl. exact IH. }
  rewrite Hz in Hb. simpl in Hb.
  destruct (resolution_inv_sq (after_pass1 lines)); [reflexivity|].
  simpl in Hb. lia.
Qed.

(** X1 on a file of three short lines and on an empty file. *)
Lemma X1_short_lines_no_data_witness :
  parse_truncate_log
    (fun _ => Some [ln "Range N_obs"; ln "$$"; ln "1 2 3 4 0.5 6 7"])
    "truncate.log" = None
  /\ parse_truncate_log (fun _ => Some []) "truncate.log" = None.
Proof.
  split.
  - apply (X1_short_lines_no_data
             (fun _ => Some [ln "Range N_obs"; ln "$$"; ln "1 2 3 4 0.5 6 7"])).
    repeat constructor.
  - apply (X1_short_lines_no_data (fun _ => Some [])). constructor.
Defined.

(** X2. In a report without any [$], pass 1 never enters the data
    section and collects nothing, whatever markers the report holds:
    the result is that of pass 2, so every x returned is greater
    than 0. *)
Theorem X2_no_dollar_no_pass1 (lines : list string) :
  Forall (fun l => contains "$" l = false) lines ->
  in_data_section (pass1 lines) = false
  /\ resolution_inv_sq (pass1 lines) = []
  /\ after_pass1 lines = pass2 lines (pass1 lines)
  /\ match parse_lines lines with
     | Some (xs, ys) => Forall (fun x => gt_zero x = true) xs
     | None => True
     end.
Proof.
  intros Hd.
  assert (Hinv : in_data_section (pass1 lines) = false
                 /\ resolution_inv_sq (pass1 lines) = []).
  { unfold pass1.
    apply (for_lines_invariant_on
             (fun l => contains "$" l = false)
             (fun st => in_data_section st = false
                        /\ resolution_inv_sq st = [])).
    - intros i line st Hl Hst. apply pass1_body_no_dollar; assumption.
    - exact Hd.
    - split; reflexivity. }
  destruct Hinv as (Hs & Hx).
  assert (Hf : fallback_taken lines = true) by (apply fallback_taken_true; exact Hx).
  split; [exact Hs|]. split; [exact Hx|].
  split; [rewrite after_pass1_cases, Hf; reflexivity|].
  destruct (parse_lines lines) as [[xs ys]|] eqn:Ep; [|exact I].
  apply parse_lines_some in Ep. destruct Ep as (Ex & _ & _). subst xs.
  eapply Forall_impl;
    [|apply (in_order_source _ _ _ _ (after_pass1_fallback_in_order lines Hf))].
  intros x (line & y & _ & Hrow). unfold row2 in Hrow.
  destruct ((8 <=? List.length (split line)) && first_isdigit (split line));
    [|discriminate].
  destruct (float_at (split line) 4) as [x'|]; [|discriminate].
  destruct (float_at (split line) 7); [|discriminate].
  destruct (gt_zero x') eqn:Eg; [|discriminate].
  inversion Hrow; subst. exact Eg.
Qed.

(** X2 on a report with a marker, no [$] and one row. *)
Lemma X2_no_dollar_no_pass1_witness :
  in_data_section (pass1 [ln "TRUNCATE"; ln "Range N_obs";
                          ln "1 2 3 4 0.5 6 7 1.5"]) = false
  /\ resolution_inv_sq (pass1 [ln "TRUNCATE"; ln "Range N_obs";
                               ln "1 2 3 4 0.5 6 7 1.5"]) = []
  /\ after_pass1 [ln "TRUNCATE"; ln "Range N_obs"; ln "1 2 3 4 0.5 6 7 1.5"]
     = pass2 [ln "TRUNCATE"; ln "Range N_obs"; ln "1 2 3 4 0.5 6 7 1.5"]
             (pass1 [ln "TRUNCATE"; ln "Range N_obs";
                     ln "1 2 3 4 0.5 6 7 1.5"])
  /\ match parse_lines [ln "TRUNCATE"; ln "Range N_obs";
                        ln "1 2 3 4 0.5 6 7 1.5"] with
     | Some (xs, ys) => Forall (fun x => gt_zero x = true) xs
     | None => True
     end.
Proof.
  apply (X2_no_dollar_no_pass1
           [ln "TRUNCATE"; ln "Range N_obs"; ln "1 2 3 4 0.5 6 7 1.5"]).
  repeat constructor.
Defined.

(** X3. The extractor returns at most one point for each line of at
    least 8 tokens, hence never more points than the report has
    lines. *)
Theorem X3_one_point_per_row (lines : list string) (xs ys : list float) :
  parse_lines lines = Some (xs, ys) ->
  List.length xs <= List.length (filter (fun l => negb (ragged l)) lines)
  /\ List.length xs <= List.length lines.
Proof.
  intros Hp. apply parse_lines_some in Hp. destruct Hp as (Ex & Ey & _).
  subst xs ys.
  pose proof (in_order_bound _ _ _ (after_pass1_in_order lines)) as Hb.
  pose proof (filter_length_le (fun l => negb (ragged l)) lines) as Hl.
  split; lia.
Qed.

(** X3 on the report of two rows and an empty line. *)
Lemma X3_one_point_per_row_witness :
  exists xs ys,
    parse_lines report_ragged = Some (xs, ys)
    /\ List.length xs
       <= List.length (filter (fun l => negb (ragged l)) report_ragged)
    /\ List.length xs <= List.length report_ragged.
Proof.
  destruct (parse_lines report_ragged) as [[xs ys]|] eqn:E.
  - exists xs, ys. split; [reflexivity|].
    apply (X3_one_point_per_row report_ragged xs ys). exact E.
  - vm_compute in E. discriminate E.
Defined.

(** X4. Once pass 1 has left its loop through [break] (the end of the
    first table), the lines that follow do not change what the
    extractor returns. *)
Theorem X4_rest_after_break_ignored (pre suf : list string) :
  broke pass1_body 0 pre init = true ->
  pass1 (pre ++ suf) = pass1 pre
  /\ parse_lines (pre ++ suf) = parse_lines pre.
Proof.
  intros Hb.
  assert (H1 : pass1 (pre ++ suf) = pass1 pre).
  { unfold pass1. apply for_lines_app_broke. exact Hb. }
  split; [exact H1|].
  pose proof (broke_nonempty pre 0%Z init Hb) as Hne.
  unfold parse_lines, after_pass1. rewrite H1.
  fold (pass1 pre) in Hne.
  destruct (resolution_inv_sq (pass1 pre)); [congruence | reflexivity].
Qed.

(** X4 on the table of [report_marker_second] followed by a second
    table. *)
Lemma X4_rest_after_break_ignored_witness :
  pass1 (report_marker_second ++ report_plain) = pass1 report_marker_second
  /\ parse_lines (report_marker_second ++ report_plain)
     = parse_lines report_marker_second.
Proof.
  apply (X4_rest_after_break_ignored report_marker_second report_plain).
  vm_compute. reflexivity.
Defined.

Section RaisingFacts.

Import Raising.

(** The test of the data-line statement never subscripts an empty
    string. *)
Lemma data_line_test_total (line : string) (st : scan) :
  data_line_test line st
  = inr (in_data_section st && starts_with_number line).
Proof.
  unfold data_line_test, starts_with_number.
  destruct (in_data_section st); [|reflexivity]. simpl.
  destruct (truthy (strip line)) eqn:T; [|reflexivity]. simpl.
  pose proof (strip_truthy_lstrip line T) as N.
  destruct (lstrip line) as [|c r]; [congruence | reflexivity].
Qed.

(** A subscript below the length does not raise. *)
Lemma float_item_in_range (parts : list string) (k : nat) (e : exn) :
  k < List.length parts -> float_item parts k = inl e -> e = ValueError.
Proof.
  intros Hk. unfold float_item, subscript, to_float.
  destruct (nth_error parts k) as [tok|] eqn:E.
  - destruct (float_of_str tok); intros H; congruence.
  - apply nth_error_None in E. lia.
Qed.

(** [float_at] is [float_item] with the two exceptions merged. *)
Lemma float_at_item (parts : list string) (k : nat) :
  float_at parts k
  = match float_item parts k with
    | inr x => Some x
    | inl _ => None
    end.
Proof.
  unfold float_at, float_item, subscript, to_float, item.
  destruct (nth_error parts k) as [tok|]; [|reflexivity].
  destruct (float_of_str tok); reflexivity.
Qed.

Lemma try_row1_caught (parts : list string) (st : scan) :
  Extractor.try_row1 parts st
  = match try_row1 parts st with
    | inr st' => Some st'
    | inl _ => None
    end.
Proof.
  unfold Extractor.try_row1, try_row1. rewrite !float_at_item.
  destruct (float_item parts (res_idx parts)); [reflexivity|].
  destruct (float_item parts (ln_idx parts)); reflexivity.
Qed.

Lemma try_row1_raises (parts : list string) (st : scan) (e : exn) :
  8 <= List.length parts -> try_row1 parts st = inl e -> e = ValueError.
Proof.
  intros H. unfold try_row1.
  rewrite (res_idx_guarded parts H), (ln_idx_guarded parts H).
  destruct (float_item parts 4) as [e4|x] eqn:E4.
  - intros R. injection R as R. subst e4.
    apply (float_item_in_range parts 4); [lia | exact E4].
  - destruct (float_item parts 7) as [e7|y] eqn:E7; [|discriminate].
    intros R. injection R as R. subst e7.
    apply (float_item_in_range parts 7); [lia | exact E7].
Qed.

Lemma try_row2_caught (parts : list string) (st : scan) :
  Extractor.try_row2 parts st
  = match try_row2 parts st with
    | inr st' => Some st'
    | inl _ => None
    end.
Proof.
  unfold Extractor.try_row2, try_row2. rewrite !float_at_item.
  destruct (float_item parts 4) as [|x]; [reflexivity|].
  destruct (float_item parts 7); [reflexivity|].
  destruct (gt_zero x); reflexivity.
Qed.

Lemma try_row2_raises (parts : list string) (st : scan) (e : exn) :
  8 <= List.length parts -> try_row2 parts st = inl e -> e = ValueError.
Proof.
  intros H. unfold try_row2.
  destruct (float_item parts 4) as [e4|x] eqn:E4.
  - intros R. injection R as R. subst e4.
    apply (float_item_in_range parts 4); [lia | exact E4].
  - destruct (float_item parts 7) as [e7|y] eqn:E7.
    + intros R. injection R as R. subst e7.
      apply (float_item_in_range parts 7); [lia | exact E7].
    + destruct (gt_zero x); discriminate.
Qed.

(** The test of pass 2 never subscripts an empty list. *)
Lemma row_test_total (parts : list string) :
  row_test parts = inr ((8 <=? List.length parts) && first_isdigit parts).
Proof.
  unfold row_test, first_isdigit, subscript, item.
  destruct (8 <=? List.length parts) eqn:G; [|reflexivity].
  apply Nat.leb_le in G.
  destruct (nth_error parts 0) as [tok|] eqn:E; [reflexivity|].
  apply nth_error_None in E. lia.
Qed.

(** The data-line statement of pass 1 lets no exception escape, and its
    handler meets [ValueError] only. *)
Lemma data_line1_flow (line : string) (st : scan) :
  (exists st', data_line1 line st = inr (Normal st' Next)
               /\ Extractor.data_line1 line st = Some st')
  \/ (data_line1 line st = inr (Handled ValueError st)
      /\ Extractor.data_line1 line st = None).
Proof.
  unfold data_line1, Extractor.data_line1.
  rewrite data_line_test_total.
  destruct (in_data_section st && starts_with_number line);
    [|left; exists st; split; reflexivity].
  cbv zeta.
  destruct (8 <=? List.length (split line)) eqn:G;
    [|left; exists st; split; reflexivity].
  apply Nat.leb_le in G.
  rewrite try_row1_caught.
  destruct (try_row1 (split line) st) as [e|st'] eqn:T.
  - right. rewrite (try_row1_raises _ _ _ G T). split; reflexivity.
  - left. exists st'. split; reflexivity.
Qed.

End RaisingFacts.

(** X5. No statement of either loop body raises an exception that
    leaves the body: the subscripts [line.lstrip()[0]], [parts[0]],
    [parts[res_idx]], [parts[ln_idx]], [parts[4]] and [parts[7]] are
    evaluated under guards that keep them in range, so no [IndexError]
    is raised. Each body with its exceptions kept apart goes on as the
    body of [Extractor] does, and whenever the handler
    [except (ValueError, IndexError)] runs, the exception it caught is a
    [ValueError] of [float]. *)
Theorem X5_no_index_error (i : Z) (line : string) (st : scan) :
  (exists f, Raising.pass1_body i line st = inr f
             /\ Raising.resume f = pass1_body i line st
             /\ forall e st', f = Raising.Handled e st' ->
                              e = Raising.ValueError)
  /\ (exists f, Raising.pass2_body i line st = inr f
                /\ Raising.resume f = pass2_body i line st
                /\ forall e st', f = Raising.Handled e st' ->
                                 e = Raising.ValueError).
Proof.
  split.
  - unfold Raising.pass1_body, pass1_body. cbv zeta.
    set (st1 := mark i line st).
    destruct (after_header i st1);
      [|eexists; split; [reflexivity|]; split; [reflexivity | discriminate]].
    destruct (contains "$" line && negb (in_data_section st1));
      [eexists; split; [reflexivity|]; split; [reflexivity | discriminate]|].
    destruct (data_line1_flow line st1) as [(st' & R & E) | (R & E)];
      rewrite R, E.
    + destruct (section_end1 line st') as [st'' c].
      eexists; split; [reflexivity|]; split; [reflexivity | discriminate].
    + eexists; split; [reflexivity|]; split; [reflexivity|].
      intros e st' H. injection H as H _. congruence.
  - unfold Raising.pass2_body, pass2_body. cbv zeta.
    rewrite row_test_total.
    destruct (8 <=? List.length (split line)) eqn:G; simpl.
    + destruct (first_isdigit (split line)).
      * apply Nat.leb_le in G. rewrite try_row2_caught.
        destruct (Raising.try_row2 (split line) st) as [e|st'] eqn:T.
        -- rewrite (try_row2_raises _ _ _ G T).
           eexists; split; [reflexivity|]; split; [reflexivity|].
           intros e' st' H. injection H as H _. congruence.
        -- eexists; split; [reflexivity|]; split; [reflexivity | discriminate].
      * destruct (in_data_section st && (List.length (split line) <? 8));
          eexists; split; try reflexivity; split; try reflexivity;
          discriminate.
    + destruct (in_data_section st && (List.length (split line) <? 8));
        eexists; split; try reflexivity; split; try reflexivity;
        discriminate.
Qed.

(** X5 on a row whose token 4 is not a number, in the data section:
    both handlers run, on a [ValueError]. *)
Lemma X5_no_index_error_witness :
  let st := mkScan 1 true [] [] in
  let line := ln "1 2 3 4 x 6 7 8" in
  Raising.pass1_body 5 line st = inr (Raising.Handled Raising.ValueError st)
  /\ Raising.pass2_body 5 line st
     = inr (Raising.Handled Raising.ValueError st).
Proof.
  cbv zeta.
  destruct (X5_no_index_error 5 (ln "1 2 3 4 x 6 7 8") (mkScan 1 true [] []))
    as [(f1 & R1 & E1 & H1) (f2 & R2 & E2 & H2)].
  split.
  - destruct f1 as [s c|e s]; [vm_compute in R1; discriminate R1|].
    rewrite R1, (H1 e s eq_refl). vm_compute in E1. congruence.
  - destruct f2 as [s c|e s]; [vm_compute in R2; discriminate R2|].
    rewrite R2, (H2 e s eq_refl). vm_compute in E2. congruence.
Defined.

(** X6. Every row pass 2 accepts passes the data-line test of pass 1
    (its first non-blank character is a digit) and has the values pass 1
    would read from it: pass 2 reads no row that pass 1 could not read
    inside a data section. *)
Theorem X6_pass2_rows_start_with_number (line : string) (p : float * float) :
  row2 line = Some p ->
  starts_with_number line = true
  /\ row1 line = Some p
  /\ (has_marker line = false -> candidate1 line = Some p).
Proof.
  intros H2.
  assert (Hs : starts_with_number line = true).
  { apply first_isdigit_starts. unfold row2 in H2.
    destruct (8 <=? List.length (split line)); [|discriminate].
    destruct (first_isdigit (split line)); [reflexivity | discriminate]. }
  pose proof (row2_row1 line p H2) as H1.
  repeat split; try assumption.
  intros Hm. unfold candidate1. rewrite Hm, Hs. exact H1.
Qed.

(** X6 on a row of the report of five rows. *)
Lemma X6_pass2_rows_start_with_number_witness :
  exists p,
    row2 (ln "1 10 10 0 0.01 5.0 1 2.5") = Some p
    /\ starts_with_number (ln "1 10 10 0 0.01 5.0 1 2.5") = true
    /\ row1 (ln "1 10 10 0 0.01 5.0 1 2.5") = Some p.
Proof.
  destruct (row2 (ln "1 10 10 0 0.01 5.0 1 2.5")) as [p|] eqn:E.
  - exists p. split; [reflexivity|].
    destruct (X6_pass2_rows_start_with_number _ p E) as (Hs & H1 & _).
    split; assumption.
  - vm_compute in E. discriminate E.
Defined.

(** X7. Every point pass 1 collects is read, in report order, from a
    line that holds no marker, whose first non-blank character is a
    digit and that has at least 8 tokens; a line that holds a marker
    only moves the recorded header index. *)
Theorem X7_pass1_points_from_candidates (lines : list string)
        (i : Z) (line : string) (st : scan) :
  in_order candidate1 lines (resolution_inv_sq (pass1 lines))
           (ln_intensity (pass1 lines))
  /\ (has_marker line = true ->
      pass1_body i line st = (set_header i st, Next)).
Proof.
  split; [|apply pass1_body_marker].
  destruct (for_lines_in_order candidate1 pass1_body pass1_body_candidate
              lines 0%Z init) as (xs & ys & Hio & Hx & Hy).
  unfold pass1. rewrite Hx, Hy. exact Hio.
Qed.

(** X7 on a marker line. *)
Lemma X7_pass1_points_from_candidates_witness :
  pass1_body 3 (ln "1 Range N_obs 4 0.5 6 7 1.5") (set_section true init)
  = (set_header 3 (set_section true init), Next).
Proof.
  destruct (X7_pass1_points_from_candidates [] 3
              (ln "1 Range N_obs 4 0.5 6 7 1.5") (set_section true init))
    as [_ H].
  apply H. reflexivity.
Defined.

(* ================================================================== *)
(** ** Further properties of the axis transforms and of the ticks *)
(* ================================================================== *)

Section TransformFacts.

Import Plotter Axis.
Local Open Scope R_scope.

Lemma resolution_above (r : R) :
  epsilon < r -> resolution_to_inv_d_sq r = 1 / r ^ 2.
Proof.
  intros H. unfold resolution_to_inv_d_sq. rewrite (floor_above r H).
  reflexivity.
Qed.

Lemma floor_mono (x y : R) : x <= y -> Rmax x epsilon <= Rmax y epsilon.
Proof.
  intros H. apply Rle_max_compat_r. exact H.
Qed.

Lemma inv_antitone (a b : R) : 0 < a -> a <= b -> 1 / b <= 1 / a.
Proof.
  intros Ha Hab. unfold Rdiv. rewrite !Rmult_1_l.
  apply Rinv_le_contravar; assumption.
Qed.

Lemma sq_mono (a b : R) : 0 <= a -> a <= b -> a ^ 2 <= b ^ 2.
Proof.
  intros Ha Hab. simpl. rewrite !Rmult_1_r.
  apply Rmult_le_compat; lra.
Qed.

Lemma resolution_strictly_antitone (v w : R) :
  epsilon < v -> v < w ->
  resolution_to_inv_d_sq w < resolution_to_inv_d_sq v.
Proof.
  intros Hv Hw. pose proof epsilon_pos as He.
  rewrite (resolution_above v Hv), (resolution_above w) by lra.
  unfold Rdiv. rewrite !Rmult_1_l.
  assert (Hsq : v ^ 2 < w ^ 2).
  { simpl. rewrite !Rmult_1_r. apply Rmult_le_0_lt_compat; lra. }
  apply Rinv_lt_contravar; [|exact Hsq].
  apply Rmult_lt_0_compat; apply pow_lt; lra.
Qed.

(** X10. On all the reals, not only above the floor, both transforms
    are non-increasing. *)
Theorem X10_transforms_antitone (x y : R) :
  x <= y ->
  inv_d_sq_to_resolution y <= inv_d_sq_to_resolution x
  /\ resolution_to_inv_d_sq y <= resolution_to_inv_d_sq x.
Proof.
  intros Hxy.
  pose proof (floor_pos x) as Hx.
  pose proof (floor_mono x y Hxy) as Hm.
  split.
  - unfold inv_d_sq_to_resolution.
    apply sqrt_le_1_alt. apply inv_antitone; assumption.
  - unfold resolution_to_inv_d_sq.
    apply inv_antitone; [apply pow_lt; exact Hx|].
    apply sq_mono; lra.
Qed.

(** X10 across the floor. *)
Lemma X10_transforms_antitone_witness :
  inv_d_sq_to_resolution 2 <= inv_d_sq_to_resolution (-3)
  /\ resolution_to_inv_d_sq 2 <= resolution_to_inv_d_sq (-3).
Proof.
  apply (X10_transforms_antitone (-3) 2). lra.
Defined.

End TransformFacts.

Section TickFacts.

Import Plotter Axis.
Local Open Scope R_scope.

Lemma epsilon_lt_tenth : epsilon < 0.1.
Proof.
  unfold epsilon.
  assert (H : / 10 ^ 10 < / 10) by (apply Rinv_lt_contravar; lra).
  lra.
Qed.

Lemma Rleb_true (a b : R) : Rleb a b = true <-> a <= b.
Proof.
  unfold Rleb. destruct (Rle_dec a b); split; intros H; try reflexivity;
    try assumption; try discriminate. contradiction.
Qed.

Lemma Rgtb_true (a b : R) : Rgtb a b = true <-> b < a.
Proof.
  unfold Rgtb. destruct (Rlt_dec b a); split; intros H; try reflexivity;
    try assumption; try discriminate. contradiction.
Qed.

Ltac forall_lra :=
  repeat (apply Forall_cons; [unfold Rgt; lra|]); apply Forall_nil.

Ltac sorted_lra :=
  repeat (apply Sorted.SSorted_cons; [|forall_lra]);
  apply Sorted.SSorted_nil.

Lemma fine_range : Forall (fun r => 0.8 <= r <= 5.5) fine.
Proof.
  unfold fine. forall_lra.
Qed.

Lemma coarse_in_fine (r : R) : In r coarse -> In r fine.
Proof.
  unfold coarse, fine.
  intros [H|[H|[H|[H|[H|[H|H]]]]]]; [| | | | | |destruct H]; subst r.
  - left. reflexivity.
  - right. left. reflexivity.
  - do 2 right. left. reflexivity.
  - do 3 right. left. reflexivity.
  - do 5 right. left. reflexivity.
  - do 6 right. left. reflexivity.
Qed.

Lemma resolutions_in_fine (x_max r : R) :
  In r (resolutions x_max) -> In r fine.
Proof.
  unfold resolutions.
  destruct (Rgtb (res_min x_max) 1.2); [apply coarse_in_fine | auto].
Qed.

(** What a tick resolution satisfies. *)
Lemma tick_resolution_spec (x_min x_max r : R) :
  In r (tick_resolutions x_min x_max) ->
  In r (resolutions x_max)
  /\ res_min x_max <= r /\ r <= res_max x_min /\ 0.8 <= r <= 5.5.
Proof.
  unfold tick_resolutions. intros H.
  apply filter_In in H. destruct H as [Hin Hb].
  apply andb_prop in Hb. destruct Hb as [H1 H2].
  apply Rleb_true in H1. apply Rleb_true in H2.
  repeat split; try assumption;
    apply (proj1 (Forall_forall _ _) fine_range r
                 (resolutions_in_fine x_max r Hin)).
Qed.

Lemma filter_strongly_sorted {A : Type} (R : A -> A -> Prop)
      (f : A -> bool) (l : list A) :
  Sorted.StronglySorted R l -> Sorted.StronglySorted R (filter f l).
Proof.
  induction 1 as [|a l Hs IH Hall]; simpl.
  - constructor.
  - destruct (f a); [|exact IH].
    constructor; [exact IH|].
    apply Forall_forall. intros b Hb. apply filter_In in Hb.
    apply (proj1 (Forall_forall _ _) Hall b (proj1 Hb)).
Qed.

Lemma fine_decreasing : Sorted.StronglySorted Rgt fine.
Proof.
  unfold fine. sorted_lra.
Qed.

Lemma coarse_decreasing : Sorted.StronglySorted Rgt coarse.
Proof.
  unfold coarse. sorted_lra.
Qed.

Lemma map_resolution_increasing (l : list R) :
  Forall (fun r => epsilon < r) l ->
  Sorted.StronglySorted Rgt l ->
  Sorted.StronglySorted Rlt (map resolution_to_inv_d_sq l).
Proof.
  intros Hpos Hs. induction Hs as [|a l Hs IH Hall]; simpl.
  - constructor.
  - inversion Hpos as [|? ? Ha Hl]; subst.
    constructor; [apply IH; exact Hl|].
    apply Forall_forall. intros p Hp. apply in_map_iff in Hp.
    destruct Hp as (b & Hb & Hin). subst p.
    apply resolution_strictly_antitone.
    + apply (proj1 (Forall_forall _ _) Hl b Hin).
    + apply (proj1 (Forall_forall _ _) Hall b Hin).
Qed.

(** X12. The tick positions are produced in strictly increasing
    order, so no tick is repeated. *)
Theorem X12_ticks_increasing (x_min x_max : R) :
  Sorted.StronglySorted Rlt (tick_positions x_min x_max).
Proof.
  unfold tick_positions. apply map_resolution_increasing.
  - apply Forall_forall. intros r Hin.
    destruct (tick_resolution_spec x_min x_max r Hin) as (_ & _ & _ & H8 & _).
    pose proof epsilon_lt_tenth. lra.
  - unfold tick_resolutions. apply filter_strongly_sorted.
    unfold resolutions.
    destruct (Rgtb (res_min x_max) 1.2);
      [exact coarse_decreasing | exact fine_decreasing].
Qed.

End TickFacts.

(* ================================================================== *)
(** ** The transforms and the ticks on binary64 values *)
(* ================================================================== *)

Section CompareFacts.

Local Open Scope Z_scope.

(** Swapping the operands of a comparison reverses its result. *)
Lemma SFcompare_antisym (x y : float) :
  SFcompare y x = option_map CompOpp (SFcompare x y).
Proof.
  destruct x as [s|s| |s p e], y as [t|t| |t q f]; simpl;
    try reflexivity; try (destruct s; reflexivity);
    try (destruct t; reflexivity);
    try (destruct s, t; reflexivity).
  destruct s, t; try reflexivity.
  - rewrite (Z.compare_antisym e f).
    destruct (e ?= f); simpl; try reflexivity.
    f_equal. rewrite CompOpp_involutive.
    rewrite (Pos.compare_cont_antisym q p Eq). reflexivity.
  - rewrite (Z.compare_antisym e f).
    destruct (e ?= f); simpl; try reflexivity.
    f_equal. rewrite (Pos.compare_cont_antisym p q Eq). reflexivity.
Qed.

Lemma SFltb_not_leb (x y : float) :
  SFltb x y = true -> SFleb y x = false.
Proof.
  unfold SFltb, SFleb. rewrite (SFcompare_antisym x y).
  destruct (SFcompare x y) as [[| |]|]; simpl; congruence.
Qed.

(** Only a value itself compares equal to a positive finite value. *)
Lemma SFcompare_eq_finite (x : float) (m : positive) (e : Z) :
  SFcompare x (S754_finite false m e) = Some Eq ->
  x = S754_finite false m e.
Proof.
  destruct x as [s|s| |s p f]; simpl; try discriminate;
    try (destruct s; discriminate).
  destruct s; [discriminate|].
  destruct (f ?= e) eqn:C; try discriminate.
  intros H. injection H as H.
  apply Z.compare_eq in C. apply Pos.compare_eq in H. congruence.
Qed.

End CompareFacts.

Section Transform64Values.

Import Binary64 Plotter64.

(** At or below the floor the argument is replaced by the floor. *)
Lemma maximum_at_floor (x : float) :
  SFleb x epsilon = true -> maximum x epsilon = epsilon.
Proof.
  intros H. unfold maximum.
  assert (Hn : isnan x = false) by (destruct x; [reflexivity..|discriminate|reflexivity]).
  rewrite Hn, orb_false_r.
  unfold SFleb in *. rewrite (SFcompare_antisym x epsilon).
  destruct (SFcompare x epsilon) as [[| |]|] eqn:C; try discriminate.
  - simpl. apply SFcompare_eq_finite. exact C.
  - reflexivity.
Qed.

(** X9. Every input at or below the floor [1e-10] (zero, the negative
    values, [-inf]) is replaced by the floor, so [inv_d_sq_to_resolution]
    returns [100000.0] and [resolution_to_inv_d_sq] returns
    [9.999999999999998e19], which is not [1e20]: the square of [1e-10]
    is rounded. *)
Theorem X9_values_at_floor (x : float) :
  SFleb x epsilon = true ->
  maximum x epsilon = epsilon
  /\ inv_d_sq_to_resolution x = literal "100000.0"
  /\ resolution_to_inv_d_sq x = literal "9.999999999999998e19"
  /\ resolution_to_inv_d_sq x <> literal "1e20".
Proof.
  intros H. pose proof (maximum_at_floor x H) as E.
  unfold inv_d_sq_to_resolution, resolution_to_inv_d_sq. rewrite E.
  split; [reflexivity|].
  split; [vm_compute; reflexivity|].
  split; [vm_compute; reflexivity|].
  vm_compute. discriminate.
Qed.

(** X9 at [x = -1.0]. *)
Lemma X9_values_at_floor_witness :
  inv_d_sq_to_resolution (literal "-1.0") = literal "100000.0"
  /\ resolution_to_inv_d_sq (literal "-1.0") = literal "9.999999999999998e19".
Proof.
  destruct (X9_values_at_floor (literal "-1.0")) as (_ & Hi & Hr & _).
  - vm_compute. reflexivity.
  - split; [exact Hi | exact Hr].
Defined.

(** The round trip on binary64 values: exact at 0.25, two units in the
    last place above at 7.0, and [9.999999999999998e19] at [1e22]. *)
Example roundtrip_binary64 :
  resolution_to_inv_d_sq (inv_d_sq_to_resolution (literal "0.25"))
  = literal "0.25"
  /\ literal "7.0" = S754_finite false 7881299347898368 (-50)
  /\ resolution_to_inv_d_sq (inv_d_sq_to_resolution (literal "7.0"))
     = S754_finite false 7881299347898370 (-50)
  /\ resolution_to_inv_d_sq (inv_d_sq_to_resolution (literal "1e22"))
     = literal "9.999999999999998e19".
Proof.
  vm_compute. repeat split.
Qed.

(** Two neighbouring binary64 inputs with the same resolution: the
    transforms are decreasing, not strictly decreasing. *)
Example resolution_not_injective :
  literal "1.9" = S754_finite false 8556839292003942 (-52)
  /\ inv_d_sq_to_resolution (S754_finite false 8556839292003943 (-52))
     = inv_d_sq_to_resolution (literal "1.9").
Proof.
  vm_compute. repeat split.
Qed.

End Transform64Values.

Section Tick64Facts.

Import Binary64 Plotter64 Axis64.

Lemma coarse_in_fine64 (r : float) : In r coarse -> In r fine.
Proof.
  unfold coarse, fine. cbn [In map]. intuition.
Qed.

(** The choice made by [if res_min > 1.2]. *)
Lemma resolutions_cases (x_max : float) :
  (SFltb (literal "1.2") (res_min x_max) = true
   /\ resolutions x_max = coarse)
  \/ (SFltb (literal "1.2") (res_min x_max) = false
      /\ resolutions x_max = fine).
Proof.
  unfold resolutions.
  destruct (SFltb (literal "1.2") (res_min x_max)); auto.
Qed.

(** X13. Every tick of the resolution axis is one of the eleven values
    of the fine list and lies between [res_min] and [res_max] in the
    order of binary64 values. When [res_min > 1.2] holds the coarse list
    is chosen, and then the tick [1.2] is never kept: every tick is one
    of 5.5, 3.0, 2.0, 1.5 and 1.3. Otherwise the fine list is chosen. *)
Theorem X13_tick_choice (x_min x_max r : float) :
  In r (tick_resolutions x_min x_max) ->
  In r fine
  /\ SFleb (res_min x_max) r = true
  /\ SFleb r (res_max x_min) = true
  /\ (if SFltb (literal "1.2") (res_min x_max)
      then resolutions x_max = coarse
           /\ In r (map literal ["5.5"; "3.0"; "2.0"; "1.5"; "1.3"])
      else resolutions x_max = fine).
Proof.
  unfold tick_resolutions. intros H.
  apply filter_In in H. destruct H as [Hin Hb].
  apply andb_prop in Hb. destruct Hb as [Hlo Hhi].
  destruct (resolutions_cases x_max) as [[Hc E] | [Hc E]];
    rewrite Hc; rewrite E in Hin.
  - split; [apply coarse_in_fine64; exact Hin|].
    split; [exact Hlo|]. split; [exact Hhi|]. split; [exact E|].
    unfold coarse in Hin. cbn [In map] in *.
    destruct Hin as [H|[H|[H|[H|[H|[H|[]]]]]]]; try tauto.
    subst r. rewrite (SFltb_not_leb _ _ Hc) in Hlo. discriminate.
  - split; [exact Hin|]. split; [exact Hlo|]. split; [exact Hhi|]. exact E.
Qed.

(** X13 at the limits [0.0] and [0.5]: [res_min] is the square root of
    2, the coarse list is chosen and 2.0 is a tick. *)
Lemma X13_tick_choice_witness :
  In (literal "2.0") fine
  /\ resolutions (literal "0.5") = coarse
  /\ In (literal "2.0") (map literal ["5.5"; "3.0"; "2.0"; "1.5"; "1.3"]).
Proof.
  assert (Hin : In (literal "2.0")
                   (tick_resolutions (literal "0.0") (literal "0.5"))).
  { vm_compute. right. right. left. reflexivity. }
  destruct (X13_tick_choice (literal "0.0") (literal "0.5") (literal "2.0") Hin)
    as (Hf & _ & _ & Hc).
  assert (Hlt : SFltb (literal "1.2") (res_min (literal "0.5")) = true)
    by (vm_compute; reflexivity).
  rewrite Hlt in Hc. destruct Hc as [Hr Hl].
  split; [exact Hf|]. split; [exact Hr | exact Hl].
Defined.

(** With [x_max = 6254999482459022 / 2^53], the binary64 value of
    [1 / 1.44], [res_min] is 1.2: the test [res_min > 1.2] fails, the
    fine list is chosen and the tick 1.2 is kept. *)
Example tick_at_res_min :
  let x_max := S754_finite false 6254999482459022 (-53) in
  res_min x_max = literal "1.2"
  /\ resolutions x_max = fine
  /\ tick_resolutions (literal "0.0") x_max
     = map literal ["5.5"; "3.0"; "2.0"; "1.5"; "1.4"; "1.3"; "1.2"].
Proof.
  vm_compute. repeat split.
Qed.

(** With [x_max] the binary64 value just below 0.25, [res_min] is 2.0
    and the tick 2.0 is placed at 0.25, above [x_max]. *)
Example tick_above_limit :
  let x_max := S754_finite false 9007199254740991 (-55) in
  SFltb x_max (literal "0.25") = true
  /\ res_min x_max = literal "2.0"
  /\ tick_positions (literal "0.0") x_max
     = map resolution_to_inv_d_sq (map literal ["5.5"; "3.0"; "2.0"])
  /\ resolution_to_inv_d_sq (literal "2.0") = literal "0.25".
Proof.
  vm_compute. repeat split.
Qed.

End Tick64Facts.

(* ================================================================== *)
(** ** A further property of the program *)
(* ================================================================== *)

Section ProgramFacts.

Import Main.

Variable readlines : string -> option (list string).
Variable render : list float -> list float -> string -> bool.

(** X16. The exit code 0 is only reached through a complete run: three
    or more arguments, a readable log file from which the extractor
    returns two lists of the same length with at least 2 points, and a
    drawing of exactly these lists, to the path of the third argument,
    that succeeded. *)
Theorem X16_exit_zero_complete_run (argv : list string) :
  main readlines render argv = 0%Z ->
  3 <= List.length argv
  /\ exists lines xs ys,
       readlines (nth 1 argv "") = Some lines
       /\ parse_lines lines = Some (xs, ys)
       /\ 2 <= List.length xs
       /\ List.length ys = List.length xs
       /\ render xs ys (nth 2 argv "") = true.
Proof.
  rewrite main_cases.
  destruct (List.length argv <? 3) eqn:Ea; [discriminate|].
  apply Nat.ltb_ge in Ea.
  destruct (parse_truncate_log readlines (nth 1 argv "")) as [[xs ys]|] eqn:Ep;
    [|discriminate].
  destruct (create_wilson_plot render xs ys (nth 2 argv "")) eqn:Ec;
    [|discriminate].
  intros _. split; [exact Ea|].
  unfold parse_truncate_log in Ep.
  destruct (readlines (nth 1 argv "")) as [lines|]; [|discriminate].
  exists lines, xs, ys.
  unfold create_wilson_plot in Ec.
  destruct (negb (nonempty xs)); [discriminate|].
  destruct (List.length xs <? 2) eqn:E2; [discriminate|].
  apply Nat.ltb_ge in E2. simpl in Ec.
  pose proof Ep as Hp. apply parse_lines_some in Hp.
  destruct Hp as (Ex & Ey & _).
  pose proof (after_pass1_paired lines) as Hpair. unfold paired in Hpair.
  rewrite <- Ex, <- Ey in Hpair.
  repeat split; auto.
Qed.

End ProgramFacts.

(** X16 on a run over the report of five rows. *)
Lemma X16_exit_zero_complete_run_witness :
  3 <= List.length ["wilsonplot3.py"; "truncate.log"; "wilson.png"]
  /\ exists lines xs ys,
       Some report_plain = Some lines
       /\ parse_lines lines = Some (xs, ys)
       /\ 2 <= List.length xs
       /\ List.length ys = List.length xs
       /\ true = true.
Proof.
  apply (X16_exit_zero_complete_run
           (fun _ => Some report_plain) (fun _ _ _ => true)
           ["wilsonplot3.py"; "truncate.log"; "wilson.png"]).
  vm_compute. reflexivity.
Defined.
